(** * Inventory console: search / filter / pagination synchronizer,
      query-cache patches, product store and create-product form.

    Shallow embedding of the TypeScript sources
      - pages/Products.tsx         (URL initialisation, [updateUrlParams],
                                    debounced search, page handlers, delete)
      - hooks/useProducts.ts       (query keys and the three mutation hooks)
      - stores/productStore.ts     (the zustand product store)
      - components/CreateProductModal.tsx (field rules, [onSubmit], images)
      - components/FilterDropdown  (the filter panel)
      - services/api.ts, stores/authStore.ts (interceptors, [logout],
                                    [checkAuth] up to its request)

    Conventions.
      - A JavaScript string is a [string] of code units below 256; its
        [length] is its number of code units.  [undefined] and [null] are
        [None].
      - Page numbers are JavaScript numbers that are integers or [NaN] on
        every path of the source ([parseInt], the literal 1, [current +- 1],
        [Math.ceil], button indices): they are modelled by [JS.pagenum],
        exact for integers in the safe range.
      - Prices are arbitrary JavaScript numbers.  Their type and the two
        built-ins used on them ([Number.prototype.toString], [parseFloat])
        are an interface, [JSNumber]; what ECMAScript guarantees about them
        is the record [JSNumberLaws].
      - [String.prototype.toUpperCase] and the text that the store's
        persistence layer writes are parameters; nothing is assumed of
        them.
      - Time is counted in milliseconds; a handler runs to completion, and
        one that awaits a request is given together with the way the
        request settles. *)

From Stdlib Require Import ZArith String Ascii List Bool Lia DecimalString DecimalZ.
From stdpp Require Import gmap strings list.

Open Scope string_scope.
Open Scope Z_scope.

(* ===================================================================== *)
(** * JavaScript built-ins used by the sources                            *)
(* ===================================================================== *)

Module JS.

(** Truthiness of a string value that may be [null]/[undefined]:
    only a present, non-empty string is truthy. *)
Definition truthy (o : option string) : bool :=
  match o with
  | Some (String _ _) => true
  | _ => false
  end.

(** [a || b] on strings: [a] when truthy, else [b]. *)
Definition or_else (o : option string) (d : string) : string :=
  match o with
  | Some (String c s) => String c s
  | _ => d
  end.

(** [s || undefined]. *)
Definition or_undefined (s : string) : option string :=
  match s with
  | EmptyString => None
  | String _ _ => Some s
  end.

(** White space skipped by [parseInt] and [parseFloat]
    (TAB, LF, VT, FF, CR, SP, NBSP in the single-byte range). *)
Definition is_space (c : ascii) : bool :=
  let n := N_of_ascii c in
  ((9 <=? n) && (n <=? 13) || (n =? 32) || (n =? 160))%N.

Fixpoint trim_start (s : string) : string :=
  match s with
  | String c s' => if is_space c then trim_start s' else s
  | EmptyString => EmptyString
  end.

(** The longest prefix of decimal digits, as a [Decimal.uint]. *)
Fixpoint digits (s : string) : Decimal.uint :=
  match s with
  | String c s' =>
      match c with
      | "0"%char => Decimal.D0 (digits s')
      | "1"%char => Decimal.D1 (digits s')
      | "2"%char => Decimal.D2 (digits s')
      | "3"%char => Decimal.D3 (digits s')
      | "4"%char => Decimal.D4 (digits s')
      | "5"%char => Decimal.D5 (digits s')
      | "6"%char => Decimal.D6 (digits s')
      | "7"%char => Decimal.D7 (digits s')
      | "8"%char => Decimal.D8 (digits s')
      | "9"%char => Decimal.D9 (digits s')
      | _ => Decimal.Nil
      end
  | EmptyString => Decimal.Nil
  end.

(** Integer-or-NaN numbers (page numbers). *)
Inductive pagenum : Type :=
| PNaN : pagenum
| Int (z : Z) : pagenum.

(** [x > y]: false as soon as one side is NaN. *)
Definition gt (x y : pagenum) : bool :=
  match x, y with
  | Int a, Int b => b <? a
  | _, _ => false
  end.

Definition sub (x y : pagenum) : pagenum :=
  match x, y with
  | Int a, Int b => Int (a - b)
  | _, _ => PNaN
  end.

Definition add (x y : pagenum) : pagenum :=
  match x, y with
  | Int a, Int b => Int (a + b)
  | _, _ => PNaN
  end.

(** [Math.max] and [Math.min]: NaN if any argument is NaN. *)
Definition max (x y : pagenum) : pagenum :=
  match x, y with
  | Int a, Int b => Int (Z.max a b)
  | _, _ => PNaN
  end.

Definition min (x y : pagenum) : pagenum :=
  match x, y with
  | Int a, Int b => Int (Z.min a b)
  | _, _ => PNaN
  end.

(** [parseInt(s, 10)]: skip white space, read an optional sign, then the
    longest run of decimal digits; NaN when that run is empty. *)
Definition parseInt10 (s : string) : pagenum :=
  match trim_start s with
  | String "-"%char r =>
      match digits r with
      | Decimal.Nil => PNaN
      | d => Int (Z.of_int (Decimal.Neg d))
      end
  | String "+"%char r =>
      match digits r with
      | Decimal.Nil => PNaN
      | d => Int (Z.of_int (Decimal.Pos d))
      end
  | r =>
      match digits r with
      | Decimal.Nil => PNaN
      | d => Int (Z.of_int (Decimal.Pos d))
      end
  end.

(** [n.toString()] for an integer-or-NaN number. *)
Definition int_toString (n : pagenum) : string :=
  match n with
  | PNaN => "NaN"
  | Int z => NilZero.string_of_int (Z.to_int z)
  end.

(** [Number.MAX_SAFE_INTEGER]: up to it every integer is a number of its
    own and is printed by [toString] in plain decimal digits. *)
Definition MAX_SAFE_INTEGER : Z := 9007199254740991.

(** [x === y] on numbers: NaN equals nothing, itself included. *)
Definition strict_eq (x y : pagenum) : bool :=
  match x, y with
  | Int a, Int b => a =? b
  | _, _ => false
  end.

(** The first character after leading white space cannot start a decimal
    literal (a sign, a digit, a dot, or the I of Infinity): no prefix of
    the string is a number. *)
Definition not_numeric (s : string) : bool :=
  match trim_start s with
  | EmptyString => true
  | String c _ =>
      negb (existsb (Ascii.eqb c)
              ("+" :: "-" :: "." :: "I" :: "0" :: "1" :: "2" :: "3" :: "4"
               :: "5" :: "6" :: "7" :: "8" :: "9" :: nil)%char)
  end.

End JS.

(** Numbers with the two built-ins the sources use on prices. *)
Class JSNumber : Type := {
  number : Type;
  NaN : number;
  number_toString : number -> string;
  parseFloat : string -> number;
}.

(** What ECMAScript guarantees for them.  Numbers are taken up to [===]
    (the two zeros are one value). *)
Record JSNumberLaws (N : JSNumber) : Prop := {
  (** [Number::toString] prints the shortest decimal that reads back to the
      same number, and every form it prints is a decimal literal. *)
  parseFloat_toString : forall x : number, x <> NaN -> parseFloat (number_toString x) = x;
  (** No number prints as the empty string. *)
  toString_truthy : forall x : number, JS.truthy (Some (number_toString x)) = true;
  (** A string with no numeric prefix parses to NaN. *)
  parseFloat_not_numeric : forall s, JS.not_numeric s = true -> parseFloat s = NaN;
}.

(** The integer-valued numbers form an implementation of the interface:
    [parseFloat] restricted to integer literals is [parseInt10]. *)
Definition IntNumber : JSNumber := {|
  number := JS.pagenum;
  NaN := JS.PNaN;
  number_toString := JS.int_toString;
  parseFloat := JS.parseInt10;
|}.

(** An integer price in that implementation. *)
Definition int_price (z : Z) : @number IntNumber := JS.Int z.

(* ===================================================================== *)
(** * URLSearchParams                                                     *)
(* ===================================================================== *)

Module URLSearchParams.

(** An ordered list of name/value pairs. *)
Definition t : Type := list (string * string).

Definition empty : t := nil.

(** [get name]: the value of the first pair with that name, or null. *)
Fixpoint get (name : string) (p : t) : option string :=
  match p with
  | nil => None
  | (k, v) :: p' => if String.eqb k name then Some v else get name p'
  end.

Definition remove (name : string) (p : t) : t :=
  List.filter (fun kv => negb (String.eqb (fst kv) name)) p.

(** [set name value]: overwrite the first pair with that name and drop
    the others, or append a new pair. *)
Fixpoint set (name value : string) (p : t) : t :=
  match p with
  | nil => (name, value) :: nil
  | (k, v) :: p' =>
      if String.eqb k name then (name, value) :: remove name p'
      else (k, v) :: set name value p'
  end.

End URLSearchParams.

(** The router's hook memoizes [setSearchParams] over the parsed query
    string: it gets a new identity exactly when the query string changes. *)
Definition on_query_change (old new : URLSearchParams.t) : bool :=
  negb (bool_decide (old = new)).


(* ===================================================================== *)
(** * The remote data client's result envelope (services/api.ts)          *)
(* ===================================================================== *)

(** [ApiResponse<T>]: [{ success, message, data? }]. *)
Record ApiResponse (T : Type) : Type := {
  success : bool;
  message : string;
  payload : option T;
}.
Arguments success {T}.
Arguments message {T}.
Arguments payload {T}.

(** What a [catch] receives: an [Error] with its message (axios rejects
    with one on transport failures) or some other thrown value. *)
Inductive Thrown : Type :=
| JsError (msg : string)
| NotAnError.

(** How an awaited call of the API service settles. *)
Inductive Settled (T : Type) : Type :=
| Resolved (response : ApiResponse T)
| Rejected (e : Thrown).
Arguments Resolved {T}.
Arguments Rejected {T}.

(** [throw new Error(response.message || fallback)]. *)
Definition failure {T : Type} (response : ApiResponse T) (fallback : string) : Thrown :=
  JsError (JS.or_else (Some (message response)) fallback).

(* ===================================================================== *)
(** * Data model (types/index.ts)                                         *)
(* ===================================================================== *)

Section Model.
Context {N : JSNumber}.

(** [ProductFilters]: every field optional. *)
Record ProductFilters : Type := {
  search : option string;
  category : option string;
  minPrice : option number;
  maxPrice : option number;
  inStock : option bool;
}.

(** The object literal [{}]. *)
Definition no_filters : ProductFilters :=
  {| search := None; category := None; minPrice := None; maxPrice := None;
     inStock := None |}.

(** [{ ...filters, search: v }]. *)
Definition with_search (filters : ProductFilters) (v : option string) : ProductFilters :=
  {| search := v; category := category filters; minPrice := minPrice filters;
     maxPrice := maxPrice filters; inStock := inStock filters |}.

Record Product : Type := {
  _id : string;
  name : string;
  description : option string;
  sku : string;
  product_category : string;
  price : number;
  quantity : Z;
  minStockLevel : Z;
  images : list string;
  isActive : bool;
  userId : string;
  createdAt : string;
  updatedAt : string;
}.

Record Pagination : Type := {
  page : Z;
  limit : Z;
  total : Z;
  pages : Z;
}.

(** [ProductsResponse] of hooks/useProducts.ts. *)
Record ProductsResponse : Type := {
  data : list Product;
  pagination : Pagination;
}.

(** [{ ...pagination, total: t }]. *)
Definition with_total (p : Pagination) (t : Z) : Pagination :=
  {| page := page p; limit := limit p; total := t; pages := pages p |}.

(* ===================================================================== *)
(** * The URL contract (pages/Products.tsx)                               *)
(* ===================================================================== *)

(** [updateUrlParams(filters, page)]: the [URLSearchParams] handed to
    [setSearchParams]. *)
Definition updateUrlParams (filters : ProductFilters) (page : JS.pagenum)
  : URLSearchParams.t :=
  let newParams := URLSearchParams.empty in
  let newParams :=
    match search filters with
    | Some (String c s) => URLSearchParams.set "search" (String c s) newParams
    | _ => newParams
    end in
  let newParams :=
    match category filters with
    | Some (String c s) => URLSearchParams.set "category" (String c s) newParams
    | _ => newParams
    end in
  let newParams :=
    match minPrice filters with
    | Some x => URLSearchParams.set "minPrice" (number_toString x) newParams
    | None => newParams
    end in
  let newParams :=
    match maxPrice filters with
    | Some x => URLSearchParams.set "maxPrice" (number_toString x) newParams
    | None => newParams
    end in
  let newParams :=
    match inStock filters with
    | Some true => URLSearchParams.set "inStock" "true" newParams
    | _ => newParams
    end in
  let newParams :=
    if JS.gt page (JS.Int 1)
    then URLSearchParams.set "page" (JS.int_toString page) newParams
    else newParams in
  newParams.

(** What the mount effect computes from the URL. *)
Record UrlState : Type := {
  url_localSearchValue : string;
  url_filters : ProductFilters;
  url_page : JS.pagenum;
}.

(** The body of the mount effect: "Initialize filters from URL params". *)
Definition initialize (searchParams : URLSearchParams.t) : UrlState :=
  let searchFromUrl := JS.or_else (URLSearchParams.get "search" searchParams) "" in
  let categoryFromUrl := JS.or_else (URLSearchParams.get "category" searchParams) "" in
  let minPriceFromUrl :=
    match URLSearchParams.get "minPrice" searchParams with
    | Some (String c s) => Some (parseFloat (String c s))
    | _ => None
    end in
  let maxPriceFromUrl :=
    match URLSearchParams.get "maxPrice" searchParams with
    | Some (String c s) => Some (parseFloat (String c s))
    | _ => None
    end in
  let inStockFromUrl :=
    match URLSearchParams.get "inStock" searchParams with
    | Some v => if String.eqb v "true" then Some true else None
    | None => None
    end in
  let pageFromUrl :=
    JS.parseInt10 (JS.or_else (URLSearchParams.get "page" searchParams) "1") in
  {| url_localSearchValue := searchFromUrl;
     url_filters :=
       {| search := JS.or_undefined searchFromUrl;
          category := JS.or_undefined categoryFromUrl;
          minPrice := minPriceFromUrl;
          maxPrice := maxPriceFromUrl;
          inStock := inStockFromUrl |};
     url_page := pageFromUrl |}.

(** A state the URL encodes without loss: no present-but-empty string, no
    [inStock: false], no NaN price, and a page that is an integer >= 1. *)
Definition url_encodable (filters : ProductFilters) (page : JS.pagenum) : Prop :=
  search filters <> Some "" /\
  category filters <> Some "" /\
  minPrice filters <> Some NaN /\
  maxPrice filters <> Some NaN /\
  inStock filters <> Some false /\
  exists z, page = JS.Int z /\ 1 <= z.

(** The state that comes back from a URL written for [filters] and [page]:
    empty strings and [inStock: false] have become absent, and a page that
    is not above 1 has become 1. *)
Definition url_normal_form (f : ProductFilters) (p : JS.pagenum)
  : ProductFilters * JS.pagenum :=
  ({| search := match search f with Some "" => None | o => o end;
      category := match category f with Some "" => None | o => o end;
      minPrice := minPrice f;
      maxPrice := maxPrice f;
      inStock := match inStock f with Some false => None | o => o end |},
   if JS.gt p (JS.Int 1) then p else JS.Int 1).

(* ===================================================================== *)
(** * The Products page as a state machine (pages/Products.tsx)           *)
(* ===================================================================== *)

(** [itemsPerPage]. *)
Definition itemsPerPage : Z := 10.

(** The debounce delay handed to [setTimeout], in milliseconds. *)
Definition debounceDelay : nat := 300.

(** A pending [setTimeout] callback of [handleSearchChange]: the time left
    before it runs and the two variables its closure captured. *)
Record Timeout : Type := {
  remaining : nat;
  closure_filters : ProductFilters;
  closure_value : string;
}.

(** The component state: the [useState] cells, the timer ref, the URL with
    the history entries pushed by [setSearchParams], and the [filters]
    object closed over by the memoized [handleSearchChange]. *)
Record Products : Type := {
  currentPage : JS.pagenum;
  filters : ProductFilters;
  isDeleteModalOpen : bool;
  productToDelete : option Product;
  localSearchValue : string;
  debounceTimeoutRef : option Timeout;
  searchParams : URLSearchParams.t;
  history : list URLSearchParams.t;
  memo_filters : ProductFilters;
}.

(** [useCallback(..., [updateUrlParams])] keeps [handleSearchChange], and
    with it the [filters] it closed over, until [setSearchParams] gets a
    new identity.  When that happens is decided by the router, not by this
    repository: [refreshes old new] says whether navigating from query
    string [old] to [new] does it. *)
Variable refreshes : URLSearchParams.t -> URLSearchParams.t -> bool.

(** [setFilters(f); setCurrentPage(p); updateUrlParams(f, p)] followed by
    the render they cause. *)
Definition publish (f : ProductFilters) (p : JS.pagenum) (st : Products) : Products :=
  let url := updateUrlParams f p in
  {| currentPage := p;
     filters := f;
     isDeleteModalOpen := isDeleteModalOpen st;
     productToDelete := productToDelete st;
     localSearchValue := localSearchValue st;
     debounceTimeoutRef := debounceTimeoutRef st;
     searchParams := url;
     history := url :: history st;
     memo_filters := if refreshes (searchParams st) url then f else memo_filters st |}.

(** First render ([useState] initial values, callbacks memoized over
    [filters = {}]) followed by the mount effect. *)
Definition mount (url : URLSearchParams.t) : Products :=
  let i := initialize url in
  {| currentPage := url_page i;
     filters := url_filters i;
     isDeleteModalOpen := false;
     productToDelete := None;
     localSearchValue := url_localSearchValue i;
     debounceTimeoutRef := None;
     searchParams := url;
     history := nil;
     memo_filters := no_filters |}.

Definition set_timer (t : option Timeout) (v : string) (st : Products) : Products :=
  {| currentPage := currentPage st;
     filters := filters st;
     isDeleteModalOpen := isDeleteModalOpen st;
     productToDelete := productToDelete st;
     localSearchValue := v;
     debounceTimeoutRef := t;
     searchParams := searchParams st;
     history := history st;
     memo_filters := memo_filters st |}.

(** [handleSearchChange(value)]: echo the text, cancel the pending timeout,
    schedule a new one. *)
Definition handleSearchChange (value : string) (st : Products) : Products :=
  set_timer (Some {| remaining := debounceDelay;
                     closure_filters := memo_filters st;
                     closure_value := value |})
            value st.

(** The timeout callback:
    [newFilters = { ...filters, search: value }; setFilters(newFilters);
     setCurrentPage(1); updateUrlParams(newFilters, 1)]. *)
Definition commit (t : Timeout) (st : Products) : Products :=
  let newFilters := with_search (closure_filters t) (Some (closure_value t)) in
  publish newFilters (JS.Int 1) (set_timer None (localSearchValue st) st).

(** [ms] milliseconds pass with no user event: the pending timeout runs
    once its delay has elapsed. *)
Definition elapse (ms : nat) (st : Products) : Products :=
  match debounceTimeoutRef st with
  | None => st
  | Some t =>
      if (remaining t <=? ms)%nat then commit t st
      else set_timer (Some {| remaining := remaining t - ms;
                              closure_filters := closure_filters t;
                              closure_value := closure_value t |})
                     (localSearchValue st) st
  end.

(** A burst of keystrokes: each [(gap, text)] is a call of
    [handleSearchChange text] made [gap] ms after the previous one. *)
Fixpoint keystrokes (calls : list (nat * string)) (st : Products) : Products :=
  match calls with
  | nil => st
  | (gap, text) :: calls' => keystrokes calls' (handleSearchChange text (elapse gap st))
  end.

(** [clearSearch]; its dependencies include [filters]. *)
Definition clearSearch (st : Products) : Products :=
  let newFilters := with_search (filters st) None in
  publish newFilters (JS.Int 1) (set_timer (debounceTimeoutRef st) "" st).

(** [handleFiltersChange(newFilters)]. *)
Definition handleFiltersChange (newFilters : ProductFilters) (st : Products) : Products :=
  publish newFilters (JS.Int 1) st.

(** [handlePageChange(page)]; its dependencies include [filters]. *)
Definition handlePageChange (page : JS.pagenum) (st : Products) : Products :=
  publish (filters st) page st.

(** [totalPages = Math.ceil((pagination?.total || 0) / itemsPerPage)];
    without query data [pagination.total] is 0. *)
Definition totalPages (productsData : option ProductsResponse) : Z :=
  let t := match productsData with
           | Some r => total (pagination r)
           | None => 0
           end in
  (t + (itemsPerPage - 1)) / itemsPerPage.

Definition handlePreviousPage (st : Products) : Products :=
  let newPage := JS.max (JS.Int 1) (JS.sub (currentPage st) (JS.Int 1)) in
  handlePageChange newPage st.

Definition handleNextPage (productsData : option ProductsResponse) (st : Products) : Products :=
  let newPage := JS.min (JS.Int (totalPages productsData))
                        (JS.add (currentPage st) (JS.Int 1)) in
  handlePageChange newPage st.

Definition handleGoToPage (page : JS.pagenum) (st : Products) : Products :=
  handlePageChange page st.

Definition handleGoToLastPage (productsData : option ProductsResponse) (st : Products) : Products :=
  handlePageChange (JS.Int (totalPages productsData)) st.

(** The numbered buttons: [Array.from({ length: Math.min(5, totalPages) },
    (_, i) => i + 1)]. *)
Definition pageButtons (productsData : option ProductsResponse) : list Z :=
  List.map (fun i : nat => Z.of_nat i + 1)
           (List.seq 0 (Z.to_nat (Z.min 5 (totalPages productsData)))).

(** The four pagination controls of the rendered page. *)
Inductive PageControl : Type :=
| PreviousButton
| NextButton
| NumberButton (page : Z)
| LastButton.

(** Which controls the render shows (the last-page button only when
    [totalPages > 5]). *)
Definition rendered (productsData : option ProductsResponse) (c : PageControl) : bool :=
  match c with
  | PreviousButton | NextButton => true
  | NumberButton p => existsb (Z.eqb p) (pageButtons productsData)
  | LastButton => 5 <? totalPages productsData
  end.

Definition click (productsData : option ProductsResponse) (c : PageControl) (st : Products)
  : Products :=
  match c with
  | PreviousButton => handlePreviousPage st
  | NextButton => handleNextPage productsData st
  | NumberButton p => handleGoToPage (JS.Int p) st
  | LastButton => handleGoToLastPage productsData st
  end.

(** [products = productsData?.data || []]. *)
Definition products (productsData : option ProductsResponse) : list Product :=
  match productsData with
  | Some r => data r
  | None => []
  end.

(** The pagination bar is rendered under
    [products && products.length > 0 && !isLoading]. *)
Definition pagination_shown (productsData : option ProductsResponse) (isLoading : bool)
  : bool :=
  negb (Nat.eqb (length (products productsData)) 0) && negb isLoading.

(** The [disabled] attribute of each control: [currentPage === 1 || isLoading]
    on the previous button, [currentPage === totalPages || isLoading] on the
    next button, [isLoading] on the others. *)
Definition disabled (productsData : option ProductsResponse) (isLoading : bool)
  (st : Products) (c : PageControl) : bool :=
  match c with
  | PreviousButton => JS.strict_eq (currentPage st) (JS.Int 1) || isLoading
  | NextButton =>
      JS.strict_eq (currentPage st) (JS.Int (totalPages productsData)) || isLoading
  | NumberButton _ | LastButton => isLoading
  end.

(** A control the user can press: the bar is shown, the control is in it
    and it is not disabled. *)
Definition clickable (productsData : option ProductsResponse) (isLoading : bool)
  (st : Products) (c : PageControl) : bool :=
  pagination_shown productsData isLoading && rendered productsData c
  && negb (disabled productsData isLoading st c).

(* ===================================================================== *)
(** * Query cache and mutation hooks (hooks/useProducts.ts)               *)
(* ===================================================================== *)

(** The query cache, split by key prefix: the entries under
    [productKeys.lists()], indexed by the hash of their
    [{ filters, page, limit }], and the entries under
    [productKeys.details()], indexed by product id.  An entry may exist
    without data. *)
Record QueryCache : Type := {
  lists : gmap string (option ProductsResponse);
  details : gmap string (option Product);
}.

Inductive Toast : Type :=
| toast_success (text : string)
| toast_error (text : string).

(** The query client together with the toasts shown so far. *)
Record Client : Type := {
  cache : QueryCache;
  toasts : list Toast;
}.

(** [queryClient.setQueriesData({ queryKey: productKeys.lists() }, updater)]
    with an updater that starts [if (!oldData) return oldData]. *)
Definition setListsData (updater : ProductsResponse -> ProductsResponse) (c : QueryCache)
  : QueryCache :=
  {| lists := fmap (M := gmap string) (option_map updater) (lists c);
     details := details c |}.

(** Updater of [useCreateProduct]. *)
Definition insertProduct (newProduct : Product) (oldData : ProductsResponse)
  : ProductsResponse :=
  {| data := newProduct :: data oldData;
     pagination := with_total (pagination oldData) (total (pagination oldData) + 1) |}.

(** Updater of [useUpdateProduct]. *)
Definition replaceProduct (updatedProduct : Product) (oldData : ProductsResponse)
  : ProductsResponse :=
  {| data := List.map (fun product : Product =>
                         if String.eqb (_id product) (_id updatedProduct)
                         then updatedProduct else product)
                      (data oldData);
     pagination := pagination oldData |}.

(** Updater of [useDeleteProduct]. *)
Definition removeProduct (deletedId : string) (oldData : ProductsResponse)
  : ProductsResponse :=
  {| data := List.filter (fun product : Product =>
                            negb (String.eqb (_id product) deletedId))
                         (data oldData);
     pagination := with_total (pagination oldData)
                              (Z.max 0 (total (pagination oldData) - 1)) |}.

(** [onSuccess] of [useCreateProduct] ([invalidateQueries] only marks the
    list entries stale; it does not touch their data).  The emoji that
    ends each success text is left out. *)
Definition createProduct_onSuccess (newProduct : Product) (q : Client) : Client :=
  {| cache := setListsData (insertProduct newProduct) (cache q);
     toasts := toast_success "Product created successfully!" :: toasts q |}.

(** [onSuccess] of [useUpdateProduct]. *)
Definition updateProduct_onSuccess (updatedProduct : Product) (q : Client) : Client :=
  let c := {| lists := lists (cache q);
              details := <[ _id updatedProduct := Some updatedProduct ]> (details (cache q)) |} in
  {| cache := setListsData (replaceProduct updatedProduct) c;
     toasts := toast_success "Product updated successfully!" :: toasts q |}.

(** [onSuccess] of [useDeleteProduct]. *)
Definition deleteProduct_onSuccess (deletedId : string) (q : Client) : Client :=
  let c := {| lists := lists (cache q);
              details := delete deletedId (details (cache q)) |} in
  {| cache := setListsData (removeProduct deletedId) c;
     toasts := toast_success "Product deleted successfully!" :: toasts q |}.

(** The shared [onError]: [toast.error(error.message || fallback)]. *)
Definition mutation_onError (fallback : string) (error : Thrown) (q : Client) : Client :=
  let text := match error with
              | JsError m => JS.or_else (Some m) fallback
              | NotAnError => fallback
              end in
  {| cache := cache q; toasts := toast_error text :: toasts q |}.

(** A [mutationFn] whose success needs [response.success && response.data]
    (create, update, and the query functions). *)
Definition unwrap {T : Type} (fallback : string) (s : Settled T) : T + Thrown :=
  match s with
  | Resolved response =>
      match success response, payload response with
      | true, Some d => inl d
      | _, _ => inr (failure response fallback)
      end
  | Rejected e => inr e
  end.

(** The [mutationFn] of [useDeleteProduct]: only [response.success] is
    checked, and the id is returned. *)
Definition unwrap_delete (id : string) (s : Settled unit) : string + Thrown :=
  match s with
  | Resolved response =>
      if success response then inl id
      else inr (failure response "Failed to delete product")
  | Rejected e => inr e
  end.

(** The three mutations, from the call to the moment the request has
    settled and the matching callback has run. *)
Definition createProduct_mutate (s : Settled Product) (q : Client) : Client :=
  match unwrap "Failed to create product" s with
  | inl newProduct => createProduct_onSuccess newProduct q
  | inr e => mutation_onError "Failed to create product" e q
  end.

Definition updateProduct_mutate (s : Settled Product) (q : Client) : Client :=
  match unwrap "Failed to update product" s with
  | inl updatedProduct => updateProduct_onSuccess updatedProduct q
  | inr e => mutation_onError "Failed to update product" e q
  end.

Definition deleteProduct_mutate (id : string) (s : Settled unit) (q : Client) : Client :=
  match unwrap_delete id s with
  | inl deletedId => deleteProduct_onSuccess deletedId q
  | inr e => mutation_onError "Failed to delete product" e q
  end.

(** [useProducts]: when the query function of the entry [hash] returns, the
    entry's data is replaced; when it throws, the query client keeps the
    entry as it is and reports the error next to it. *)
Definition useProducts_settle (hash : string) (s : Settled ProductsResponse) (c : QueryCache)
  : QueryCache * option Thrown :=
  match unwrap "Failed to fetch products" s with
  | inl d => ({| lists := <[ hash := Some d ]> (lists c); details := details c |}, None)
  | inr e => (c, Some e)
  end.

(** [handleDeleteClick(product)]. *)
Definition handleDeleteClick (product : Product) (st : Products) : Products :=
  {| currentPage := currentPage st;
     filters := filters st;
     isDeleteModalOpen := true;
     productToDelete := Some product;
     localSearchValue := localSearchValue st;
     debounceTimeoutRef := debounceTimeoutRef st;
     searchParams := searchParams st;
     history := history st;
     memo_filters := memo_filters st |}.

(** [handleDeleteConfirm], from the click to the end of the handler.
    The callback is created anew by every render (the mutation object among
    its dependencies is a new object each time), so the [filters],
    [currentPage] and [productToDelete] it reads are those of the state at
    the click; [products] is the [products] constant of that render
    ([productsData?.data || []]), and [s] is how the delete request
    settles.  The cache patch itself is [deleteProduct_mutate]. *)
Definition handleDeleteConfirm (products : list Product) (s : Settled unit) (st : Products)
  : Products :=
  match productToDelete st with
  | None => st
  | Some p =>
      match unwrap_delete (_id p) s with
      | inr _ => st
      | inl _ =>
          let st' :=
            {| currentPage := currentPage st;
               filters := filters st;
               isDeleteModalOpen := false;
               productToDelete := None;
               localSearchValue := localSearchValue st;
               debounceTimeoutRef := debounceTimeoutRef st;
               searchParams := searchParams st;
               history := history st;
               memo_filters := memo_filters st |} in
          if (length products =? 1)%nat && JS.gt (currentPage st) (JS.Int 1)
          then
            let newPage := JS.sub (currentPage st) (JS.Int 1) in
            publish (filters st) newPage st'
          else st'
      end
  end.

(* ===================================================================== *)
(** * The product store (stores/productStore.ts)                          *)
(* ===================================================================== *)

Record ProductStore : Type := {
  store_products : list Product;
  store_currentProduct : option Product;
  store_isLoading : bool;
  store_error : option string;
  store_pagination : Pagination;
  store_filters : ProductFilters;
}.

(** The payload the store reads from a list response:
    [response.data.items] and [response.data.pagination]. *)
Record Page : Type := {
  items : list Product;
  page_pagination : Pagination;
}.

(** [error instanceof Error ? error.message : fallback]. *)
Definition errorMessage (fallback : string) (e : Thrown) : string :=
  match e with
  | JsError m => m
  | NotAnError => fallback
  end.

(** The [catch] block shared by all actions:
    [set({ error: errorMessage, isLoading: false })], after the opening
    [set({ isLoading: true, error: null })]. *)
Definition store_catch (fallback : string) (e : Thrown) (st : ProductStore) : ProductStore :=
  {| store_products := store_products st;
     store_currentProduct := store_currentProduct st;
     store_isLoading := false;
     store_error := Some (errorMessage fallback e);
     store_pagination := store_pagination st;
     store_filters := store_filters st |}.

(** The success [set] of each action, merged over the opening [set]. *)
Definition store_set (products : list Product) (current : option Product)
  (pg : Pagination) (st : ProductStore) : ProductStore :=
  {| store_products := products;
     store_currentProduct := current;
     store_isLoading := false;
     store_error := None;
     store_pagination := pg;
     store_filters := store_filters st |}.

Definition fetchProducts (s : Settled Page) (st : ProductStore) : ProductStore :=
  match unwrap "Failed to fetch products" s with
  | inl d => store_set (items d) (store_currentProduct st) (page_pagination d) st
  | inr e => store_catch "Failed to fetch products" e st
  end.

Definition fetchProduct (s : Settled Product) (st : ProductStore) : ProductStore :=
  match unwrap "Failed to fetch product" s with
  | inl d => store_set (store_products st) (Some d) (store_pagination st) st
  | inr e => store_catch "Failed to fetch product" e st
  end.

Definition createProduct (s : Settled Product) (st : ProductStore) : ProductStore :=
  match unwrap "Failed to create product" s with
  | inl d => store_set (d :: store_products st) (store_currentProduct st)
                       (store_pagination st) st
  | inr e => store_catch "Failed to create product" e st
  end.

Definition updateProduct (id : string) (s : Settled Product) (st : ProductStore)
  : ProductStore :=
  match unwrap "Failed to update product" s with
  | inl d =>
      store_set (List.map (fun product : Product =>
                             if String.eqb (_id product) id then d else product)
                          (store_products st))
                (Some d) (store_pagination st) st
  | inr e => store_catch "Failed to update product" e st
  end.

Definition deleteProduct (id : string) (s : Settled unit) (st : ProductStore)
  : ProductStore :=
  match unwrap_delete id s with
  | inl _ =>
      store_set (List.filter (fun product : Product =>
                                negb (String.eqb (_id product) id))
                             (store_products st))
                None (store_pagination st) st
  | inr e => store_catch "Failed to delete product" e st
  end.

Definition searchProducts (s : Settled Page) (st : ProductStore) : ProductStore :=
  match unwrap "Search failed" s with
  | inl d => store_set (items d) (store_currentProduct st) (page_pagination d) st
  | inr e => store_catch "Search failed" e st
  end.

(** One asynchronous store action together with how its request settles. *)
Inductive StoreCall : Type :=
| CallFetchProducts (s : Settled Page)
| CallFetchProduct (s : Settled Product)
| CallCreateProduct (s : Settled Product)
| CallUpdateProduct (id : string) (s : Settled Product)
| CallDeleteProduct (id : string) (s : Settled unit)
| CallSearchProducts (s : Settled Page).

Definition store_run (c : StoreCall) (st : ProductStore) : ProductStore :=
  match c with
  | CallFetchProducts s => fetchProducts s st
  | CallFetchProduct s => fetchProduct s st
  | CallCreateProduct s => createProduct s st
  | CallUpdateProduct id s => updateProduct id s st
  | CallDeleteProduct id s => deleteProduct id s st
  | CallSearchProducts s => searchProducts s st
  end.

(** The network or application-level failure a call ends in, if any. *)
Definition store_failure (c : StoreCall) : option Thrown :=
  let left {T : Type} (r : T + Thrown) : option Thrown :=
    match r with inl _ => None | inr e => Some e end in
  match c with
  | CallFetchProducts s => left (unwrap "Failed to fetch products" s)
  | CallFetchProduct s => left (unwrap "Failed to fetch product" s)
  | CallCreateProduct s => left (unwrap "Failed to create product" s)
  | CallUpdateProduct _ s => left (unwrap "Failed to update product" s)
  | CallDeleteProduct id s => left (unwrap_delete id s)
  | CallSearchProducts s => left (unwrap "Search failed" s)
  end.

(** One hook mutation together with how its request settles. *)
Inductive MutationCall : Type :=
| MutateCreate (s : Settled Product)
| MutateUpdate (s : Settled Product)
| MutateDelete (id : string) (s : Settled unit).

Definition mutation_run (c : MutationCall) (q : Client) : Client :=
  match c with
  | MutateCreate s => createProduct_mutate s q
  | MutateUpdate s => updateProduct_mutate s q
  | MutateDelete id s => deleteProduct_mutate id s q
  end.

Definition mutation_failure (c : MutationCall) : option Thrown :=
  let left {T : Type} (r : T + Thrown) : option Thrown :=
    match r with inl _ => None | inr e => Some e end in
  match c with
  | MutateCreate s => left (unwrap "Failed to create product" s)
  | MutateUpdate s => left (unwrap "Failed to update product" s)
  | MutateDelete id s => left (unwrap_delete id s)
  end.

(* ===================================================================== *)
(** * More of the Products page (pages/Products.tsx)                      *)
(* ===================================================================== *)

(** The cleanup of the unmount effect:
    [clearTimeout(debounceTimeoutRef.current)]. *)
Definition unmount (st : Products) : Products :=
  set_timer None (localSearchValue st) st.

(** The two ends of "Showing a-b of n":
    [(currentPage - 1) * itemsPerPage + 1] and
    [Math.min(currentPage * itemsPerPage, pagination?.total || 0)]. *)
Definition showingFrom (page : Z) : Z := (page - 1) * itemsPerPage + 1.

Definition showingTo (productsData : option ProductsResponse) (page : Z) : Z :=
  Z.min (page * itemsPerPage)
        (match productsData with
         | Some r => total (pagination r)
         | None => 0
         end).

(** The user and timer events whose handlers run to completion at once.
    The delete confirmation is not among them: its handler waits for the
    request, and other events can come in between; it is
    [handleDeleteConfirm], above. *)
Inductive Event : Type :=
| SearchChange (value : string)
| Wait (ms : nat)
| ClearSearch
| FiltersChange (newFilters : ProductFilters)
| PageClick (productsData : option ProductsResponse) (c : PageControl)
| DeleteClick (product : Product)
| DeleteCancel.

(** [handleDeleteCancel]. *)
Definition handleDeleteCancel (st : Products) : Products :=
  {| currentPage := currentPage st;
     filters := filters st;
     isDeleteModalOpen := false;
     productToDelete := None;
     localSearchValue := localSearchValue st;
     debounceTimeoutRef := debounceTimeoutRef st;
     searchParams := searchParams st;
     history := history st;
     memo_filters := memo_filters st |}.

Definition handle (e : Event) (st : Products) : Products :=
  match e with
  | SearchChange value => handleSearchChange value st
  | Wait ms => elapse ms st
  | ClearSearch => clearSearch st
  | FiltersChange newFilters => handleFiltersChange newFilters st
  | PageClick productsData c => click productsData c st
  | DeleteClick product => handleDeleteClick product st
  | DeleteCancel => handleDeleteCancel st
  end.

Definition run (events : list Event) (st : Products) : Products :=
  fold_left (fun st e => handle e st) events st.

(* ===================================================================== *)
(** * The filter panel (components/FilterDropdown.tsx)                    *)
(* ===================================================================== *)

Inductive PriceField : Type := MinPriceField | MaxPriceField.

(** [handleCategoryChange(category, checked)] applied to [prev]. *)
Definition handleCategoryChange (cat : string) (checked : bool) (prev : ProductFilters)
  : ProductFilters :=
  {| search := search prev;
     category := if checked then Some cat else None;
     minPrice := minPrice prev;
     maxPrice := maxPrice prev;
     inStock := inStock prev |}.

(** [handlePriceChange(field, value)] applied to [prev]. *)
Definition handlePriceChange (field : PriceField) (value : string) (prev : ProductFilters)
  : ProductFilters :=
  let numValue := if String.eqb value "" then None else Some (parseFloat value) in
  match field with
  | MinPriceField =>
      {| search := search prev; category := category prev;
         minPrice := numValue; maxPrice := maxPrice prev;
         inStock := inStock prev |}
  | MaxPriceField =>
      {| search := search prev; category := category prev;
         minPrice := minPrice prev; maxPrice := numValue;
         inStock := inStock prev |}
  end.

(** [handleInStockChange(checked)] applied to [prev]. *)
Definition handleInStockChange (checked : bool) (prev : ProductFilters) : ProductFilters :=
  {| search := search prev; category := category prev;
     minPrice := minPrice prev; maxPrice := maxPrice prev;
     inStock := if checked then Some true else None |}.

(** [{ search: filters.search }], the object built by [clearFilters]. *)
Definition clearedFilters (f : ProductFilters) : ProductFilters :=
  {| search := search f; category := None; minPrice := None; maxPrice := None;
     inStock := None |}.

Definition is_defined {A : Type} (o : option A) : bool :=
  match o with Some _ => true | None => false end.

Definition is_true (o : option bool) : bool :=
  match o with Some true => true | _ => false end.

(** [hasActiveFilters]. *)
Definition hasActiveFilters (f : ProductFilters) : bool :=
  JS.truthy (category f) || is_defined (minPrice f) || is_defined (maxPrice f)
  || is_true (inStock f).

(** [getActiveFilterCount()]. *)
Definition getActiveFilterCount (f : ProductFilters) : nat :=
  ((if JS.truthy (category f) then 1 else 0)
   + (if is_defined (minPrice f) || is_defined (maxPrice f) then 1 else 0)
   + (if is_true (inStock f) then 1 else 0))%nat.

(** The page together with the panel it renders: [localFilters] is the
    panel's working copy and [isOpen] its visibility. *)
Record Screen : Type := {
  products_page : Products;
  localFilters : ProductFilters;
  isOpen : bool;
}.

Inductive PanelEdit : Type :=
| CategoryChange (cat : string) (checked : bool)
| PriceChange (field : PriceField) (value : string)
| InStockChange (checked : bool).

Definition edit (e : PanelEdit) (prev : ProductFilters) : ProductFilters :=
  match e with
  | CategoryChange cat checked => handleCategoryChange cat checked prev
  | PriceChange field value => handlePriceChange field value prev
  | InStockChange checked => handleInStockChange checked prev
  end.

(** What the user can do on the screen.  [handleFiltersChange] is reached
    only through the panel's two buttons. *)
Inductive Action : Type :=
| Type_ (value : string)
| Idle (ms : nat)
| PressClearSearch
| Toggle
| Edit (e : PanelEdit)
| ApplyFilters
| ClearFilters
| Paginate (productsData : option ProductsResponse) (c : PageControl).

(** Does the pending timeout run within [ms] milliseconds? *)
Definition fires (ms : nat) (st : Products) : bool :=
  match debounceTimeoutRef st with
  | Some t => (remaining t <=? ms)%nat
  | None => false
  end.

(** One action, followed by the panel's effect
    [useEffect(() => setLocalFilters(filters), [filters])], which runs
    whenever the page has called [setFilters]. *)
Definition act (a : Action) (s : Screen) : Screen :=
  let st := products_page s in
  match a with
  | Type_ value =>
      {| products_page := handleSearchChange value st;
         localFilters := localFilters s; isOpen := isOpen s |}
  | Idle ms =>
      let st' := elapse ms st in
      {| products_page := st';
         localFilters := if fires ms st then filters st' else localFilters s;
         isOpen := isOpen s |}
  | PressClearSearch =>
      let st' := clearSearch st in
      {| products_page := st'; localFilters := filters st'; isOpen := isOpen s |}
  | Toggle =>
      {| products_page := st; localFilters := localFilters s;
         isOpen := negb (isOpen s) |}
  | Edit e =>
      {| products_page := st; localFilters := edit e (localFilters s);
         isOpen := isOpen s |}
  | ApplyFilters =>
      let st' := handleFiltersChange (localFilters s) st in
      {| products_page := st'; localFilters := filters st'; isOpen := false |}
  | ClearFilters =>
      let st' := handleFiltersChange (clearedFilters (filters st)) st in
      {| products_page := st'; localFilters := filters st'; isOpen := isOpen s |}
  | Paginate productsData c =>
      {| products_page := click productsData c st;
         localFilters := localFilters s; isOpen := isOpen s |}
  end.

(** The screen once the page has mounted on [url] and the panel's effect
    has copied the initialised filters. *)
Definition open_screen (url : URLSearchParams.t) : Screen :=
  {| products_page := mount url;
     localFilters := filters (mount url);
     isOpen := false |}.

Definition session (actions : list Action) (s : Screen) : Screen :=
  fold_left (fun s a => act a s) actions s.

(* ===================================================================== *)
(** * Query keys (hooks/useProducts.ts)                                   *)
(* ===================================================================== *)

(** One element of a query key: a string, or the object
    [{ filters, page, limit }]. *)
Inductive KeyPart : Type :=
| KString (s : string)
| KQuery (f : ProductFilters) (page : JS.pagenum) (limit : Z).

(** [productKeys]. *)
Definition keys_all : list KeyPart := [KString "products"].
Definition keys_lists : list KeyPart := keys_all ++ [KString "list"].
Definition keys_list (f : ProductFilters) (page : JS.pagenum) (limit : Z)
  : list KeyPart := keys_lists ++ [KQuery f page limit].
Definition keys_details : list KeyPart := keys_all ++ [KString "detail"].
Definition keys_detail (id : string) : list KeyPart := keys_details ++ [KString id].

(** A query matches a [queryKey] filter when the filter is a prefix of its
    key. *)
Definition matches (filter key : list KeyPart) : Prop :=
  exists rest : list KeyPart, key = (filter ++ rest)%list.

(** ** States the page tells apart *)

(** Two filter sets that every reader of the page takes for the same: the
    search box shows [filters.search || ''], the URL writer and the filter
    panel test [filters.category] and [filters.inStock] for truthiness (the
    check box shows [inStock || false]), and the prices are read as they
    are. *)
Definition same_filters (f g : ProductFilters) : Prop :=
  JS.or_else (search f) "" = JS.or_else (search g) "" /\
  JS.or_else (category f) "" = JS.or_else (category g) "" /\
  minPrice f = minPrice g /\
  maxPrice f = maxPrice g /\
  is_true (inStock f) = is_true (inStock g).

(** A filter set and a page number that are well formed: a price, when
    present, is a number and not NaN, and the page is an integer from 1 up
    to [Number.MAX_SAFE_INTEGER]. *)
Definition valid_state (f : ProductFilters) (p : JS.pagenum) : Prop :=
  minPrice f <> Some NaN /\
  maxPrice f <> Some NaN /\
  exists z : Z, p = JS.Int z /\ 1 <= z <= JS.MAX_SAFE_INTEGER.

End Model.

(* ===================================================================== *)
(** * The create-product form (components/CreateProductModal.tsx)         *)
(* ===================================================================== *)

Module CreateProductModal.

(** Upper-casing of ASCII text: the letters a-z are raised, every other
    code unit is kept.  It is what [String.prototype.toUpperCase] does on
    ASCII strings, and the implementation used on the sample data. *)
Definition upper_char (c : ascii) : ascii :=
  let n := N_of_ascii c in
  if ((97 <=? n) && (n <=? 122))%N then ascii_of_N (n - 32) else c.

Fixpoint upper_ascii (s : string) : string :=
  match s with
  | EmptyString => EmptyString
  | String c s' => String (upper_char c) (upper_ascii s')
  end.

Fixpoint rev_string (s : string) (acc : string) : string :=
  match s with
  | EmptyString => acc
  | String c s' => rev_string s' (String c acc)
  end.

(** [String.prototype.trim]. *)
Definition trim (s : string) : string :=
  rev_string (JS.trim_start (rev_string (JS.trim_start s) "")) "".

(** The registered fields. *)
Inductive Field : Type :=
| f_name | f_sku | f_description | f_category | f_price | f_quantity
| f_minStockLevel.

(** The text of every input of the form, and the [images] array. *)
Record FormValues : Type := {
  name : string;
  description : string;
  sku : string;
  category : string;
  price : string;
  quantity : string;
  minStockLevel : string;
  images : list string;
}.

Definition value_of (f : Field) (v : FormValues) : string :=
  match f with
  | f_name => name v
  | f_sku => sku v
  | f_description => description v
  | f_category => category v
  | f_price => price v
  | f_quantity => quantity v
  | f_minStockLevel => minStockLevel v
  end.

(** The options object given to [register]. *)
Record Rules : Type := {
  required : option string;
  min : option ((string -> bool) * string);
  minLength : option (nat * string);
  maxLength : option (nat * string);
  validate : option (string -> option string);
}.

(** The first error wins; the later rules are not consulted. *)
Definition first_error (a b : option string) : option string :=
  match a with
  | Some m => Some m
  | None => b
  end.

Infix "|||" := first_error (at level 50, left associativity).

(** The form library's per-field check, in its default mode (the first
    failing rule gives the field's error): [required], then [min], then
    the two length rules, then [validate]; every rule but [required] and
    [validate] is skipped on an empty value. *)
Definition validateField (r : Rules) (inputValue : string) : option string :=
  let isEmpty := String.eqb inputValue "" in
  let exceedMax := match maxLength r with
                   | Some (n, _) => (n <? String.length inputValue)%nat
                   | None => false
                   end in
  let exceedMin := match minLength r with
                   | Some (n, _) => (String.length inputValue <? n)%nat
                   | None => false
                   end in
  match required r, isEmpty with
  | Some m, true => Some m
  | _, _ =>
      match min r, isEmpty with
      | Some (belowMin, m), false =>
          if belowMin inputValue then Some m else None
      | _, _ => None
      end
      ||| (if negb isEmpty && (exceedMax || exceedMin)
           then if exceedMax then option_map snd (maxLength r)
                else option_map snd (minLength r)
           else None)
      ||| match validate r with
          | Some f => f inputValue
          | None => None
          end
  end.

Section Form.

(** Numeric comparison of an input's text against the two [min] bounds:
    [value < 0.01] and [value < 0]. *)
Variable below_cent : string -> bool.
Variable below_zero : string -> bool.

(** [String.prototype.toUpperCase], the built-in.  Nothing is assumed of
    it: outside ASCII it can change the length of a string. *)
Variable toUpperCase : string -> string.

(** The [register] call of each field. *)
Definition rules (f : Field) : Rules :=
  match f with
  | f_name =>
      {| required := Some "Product name is required";
         min := None;
         minLength := None;
         maxLength := Some (100%nat, "Product name cannot exceed 100 characters");
         validate := Some (fun value =>
                             if (0 <? String.length (trim value))%nat then None
                             else Some "Product name cannot be empty") |}
  | f_sku =>
      {| required := Some "SKU is required";
         min := None;
         minLength := Some (3%nat, "SKU must be at least 3 characters");
         maxLength := Some (50%nat, "SKU cannot exceed 50 characters");
         validate := Some (fun value =>
                             if (0 <? String.length (trim value))%nat then None
                             else Some "SKU cannot be empty") |}
  | f_description =>
      {| required := None;
         min := None;
         minLength := None;
         maxLength := Some (500%nat, "Description cannot exceed 500 characters");
         validate := None |}
  | f_category =>
      {| required := Some "Category is required";
         min := None; minLength := None; maxLength := None; validate := None |}
  | f_price =>
      {| required := Some "Price is required";
         min := Some (below_cent, "Price must be greater than 0");
         minLength := None; maxLength := None; validate := None |}
  | f_quantity =>
      {| required := Some "Quantity is required";
         min := Some (below_zero, "Quantity must be 0 or greater");
         minLength := None; maxLength := None; validate := None |}
  | f_minStockLevel =>
      {| required := Some "Minimum stock level is required";
         min := Some (below_zero, "Minimum stock level must be 0 or greater");
         minLength := None; maxLength := None; validate := None |}
  end.

(** [errors.<field>.message]. *)
Definition error_of (f : Field) (v : FormValues) : option string :=
  validateField (rules f) (value_of f v).

Definition fields : list Field :=
  f_name :: f_sku :: f_description :: f_category :: f_price :: f_quantity
  :: f_minStockLevel :: nil.

Definition isValid (v : FormValues) : bool :=
  forallb (fun f => match error_of f v with None => true | Some _ => false end) fields.

(** [onSubmit(data)]: the body sent by [createProductMutation.mutateAsync]. *)
Definition onSubmit (data : FormValues) : FormValues :=
  {| name := name data;
     description := description data;
     sku := toUpperCase (sku data);
     category := category data;
     price := price data;
     quantity := quantity data;
     minStockLevel := minStockLevel data;
     images := images data |}.

(** [handleSubmit(onSubmit)] run on a submit event of the form: the create
    requests sent to the server.  [onSubmit] runs only when no field has an
    error.  The form does not switch off the browser's own validation of
    its inputs, which can hold a submit event back before this handler
    runs. *)
Definition handleSubmit (v : FormValues) : list FormValues :=
  if isValid v then onSubmit v :: nil else nil.

End Form.

(** ** The image list of the modal *)

(** [images.includes(x)]. *)
Definition includes (x : string) (l : list string) : bool :=
  existsb (String.eqb x) l.

(** The characters [.] does not match (LF and CR in the single-byte
    range). *)
Definition is_line_terminator (c : ascii) : bool :=
  let n := N_of_ascii c in ((n =? 10) || (n =? 13))%N.

(** [strip prefix s]: what follows [prefix] in [s], when [s] starts with
    it. *)
Fixpoint strip (prefix s : string) : option string :=
  match prefix with
  | EmptyString => Some s
  | String a prefix' =>
      match s with
      | String b s' => if Ascii.eqb a b then strip prefix' s' else None
      | EmptyString => None
      end
  end.

(** [/^https?:\/\/.+/.test(s)]. *)
Definition urlPattern (s : string) : bool :=
  let one_char (rest : option string) : bool :=
    match rest with
    | Some (String c _) => negb (is_line_terminator c)
    | _ => false
    end in
  one_char (strip "https://" s) || one_char (strip "http://" s).

(** The modal's own state next to the form values. *)
Record Modal : Type := {
  imageUrl : string;
  imageError : string;
  values : FormValues;
}.

(** [setValue('images', l)]. *)
Definition set_images (l : list string) (v : FormValues) : FormValues :=
  {| name := name v;
     description := description v;
     sku := sku v;
     category := category v;
     price := price v;
     quantity := quantity v;
     minStockLevel := minStockLevel v;
     images := l |}.

(** [addImage()]. *)
Definition addImage (m : Modal) : Modal :=
  let trimmed := trim (imageUrl m) in
  if JS.truthy (Some trimmed) && negb (includes trimmed (images (values m)))
  then
    if urlPattern trimmed
    then {| imageUrl := "";
            imageError := "";
            values := set_images (images (values m) ++ trimmed :: nil)%list
                                 (values m) |}
    else {| imageUrl := imageUrl m;
            imageError :=
              "Please enter a valid URL (starting with http:// or https://)";
            values := values m |}
  else m.

(** [l.filter((_, i) => keep(i))], counting positions from [i]. *)
Fixpoint filter_index (keep : nat -> bool) (i : nat) (l : list string) : list string :=
  match l with
  | nil => nil
  | x :: l' =>
      if keep i then x :: filter_index keep (S i) l'
      else filter_index keep (S i) l'
  end.

(** [removeImage(index)]. *)
Definition removeImage (index : nat) (m : Modal) : Modal :=
  let updatedImages :=
    filter_index (fun i => negb (Nat.eqb i index)) 0 (images (values m)) in
  {| imageUrl := imageUrl m;
     imageError := imageError m;
     values := set_images updatedImages (values m) |}.

(** [defaultValues], with the text an untouched number input holds. *)
Definition defaultValues : FormValues :=
  {| name := ""; description := ""; sku := ""; category := "";
     price := ""; quantity := ""; minStockLevel := "5"; images := nil |}.

(** [handleClose]: [reset(); setImageUrl(''); setImageError('')]. *)
Definition handleClose (m : Modal) : Modal :=
  {| imageUrl := ""; imageError := ""; values := defaultValues |}.

(** What the user does in the image section. *)
Inductive ImageAction : Type :=
| TypeUrl (text : string)
| AddImage
| RemoveImage (index : nat)
| Close.

Definition image_step (a : ImageAction) (m : Modal) : Modal :=
  match a with
  | TypeUrl text =>
      {| imageUrl := text; imageError := imageError m; values := values m |}
  | AddImage => addImage m
  | RemoveImage index => removeImage index m
  | Close => handleClose m
  end.

Definition image_session (actions : list ImageAction) (m : Modal) : Modal :=
  fold_left (fun m a => image_step a m) actions m.

End CreateProductModal.

(* ===================================================================== *)
(** * Credentials (services/api.ts interceptors, stores/authStore.ts)     *)
(* ===================================================================== *)

Module Auth.

Inductive Role : Type := USER | MANAGER | ADMIN.

Record User : Type := {
  _id : string;
  firstName : string;
  lastName : string;
  email : string;
  role : Role;
  createdAt : string;
  updatedAt : string;
}.

(** What the interceptors and the store touch of the browser:
    [localStorage] and [window.location.href]. *)
Record Browser : Type := {
  localStorage : gmap string string;
  href : string;
}.

(** [localStorage.removeItem(key)]. *)
Definition removeItem (key : string) (b : Browser) : Browser :=
  {| localStorage := delete key (localStorage b); href := href b |}.

(** [localStorage.setItem(key, value)]. *)
Definition setItem (key value : string) (b : Browser) : Browser :=
  {| localStorage := <[ key := value ]> (localStorage b); href := href b |}.

(** The request interceptor: the [Authorization] header it sets, if any. *)
Definition requestInterceptor (b : Browser) : option string :=
  match localStorage b !! "token" with
  | Some (String c s) => Some ("Bearer " ++ String c s)
  | _ => None
  end.

(** The error branch of the response interceptor, for a failure whose
    [error.response?.status] is [status]; the error is rejected again in
    every case. *)
Definition responseErrorInterceptor (status : option Z) (b : Browser) : Browser :=
  match status with
  | Some 401 =>
      {| localStorage := delete "user" (delete "token" (localStorage b));
         href := "/login" |}
  | _ => b
  end.

(** The state of the auth store. *)
Record AuthStore : Type := {
  user : option User;
  token : option string;
  isLoading : bool;
  isAuthenticated : bool;
  error : option string;
}.

(** The store together with the browser it runs in. *)
Record World : Type := {
  store : AuthStore;
  browser : Browser;
}.

(** How [checkAuth] leaves its caller: finished, or waiting for the answer
    to the profile request it has sent for the stored token. *)
Inductive Started : Type :=
| Done (w : World)
| Awaiting (token : string) (w : World).

Section Persist.

(** The text that the persistence layer stores for [partialize(state)],
    the [user], [token] and [isAuthenticated] fields, under the name
    [auth-storage].  It is the library's encoding; nothing is assumed of
    it. *)
Variable stringify : option User -> option string -> bool -> string.

(** The [set] that [persist] hands to the store: the state is replaced and
    its persisted part is written to [localStorage]. *)
Definition set (s : AuthStore) (w : World) : World :=
  {| store := s;
     browser := setItem "auth-storage"
                        (stringify (user s) (token s) (isAuthenticated s))
                        (browser w) |}.

Definition logout (w : World) : World :=
  let b := removeItem "user" (removeItem "token" (browser w)) in
  set {| user := None; token := None; isLoading := isLoading (store w);
         isAuthenticated := false; error := None |}
      {| store := store w; browser := b |}.

(** [checkAuth] up to its [await]: without a stored token it sets
    [isAuthenticated: false] and returns; otherwise it sets
    [isLoading: true] and sends the profile request. *)
Definition checkAuth (w : World) : Started :=
  match localStorage (browser w) !! "token" with
  | Some (String c t) =>
      Awaiting (String c t)
        (set {| user := user (store w); token := token (store w);
                isLoading := true;
                isAuthenticated := isAuthenticated (store w);
                error := error (store w) |} w)
  | _ =>
      Done (set {| user := user (store w); token := token (store w);
                   isLoading := isLoading (store w);
                   isAuthenticated := false; error := error (store w) |} w)
  end.

End Persist.

End Auth.

(* ===================================================================== *)
(** * Sample data                                                         *)
(* ===================================================================== *)

Module Sample.

#[local] Existing Instance IntNumber.

Definition product (id sku_ : string) (price_ : Z) : Product (N := IntNumber) :=
  {| _id := id; name := "Item " ++ id; description := None; sku := sku_;
     product_category := "Electronics"; price := int_price price_;
     quantity := 4; minStockLevel := 5; images := nil; isActive := true;
     userId := "u1"; createdAt := "2024-01-01T00:00:00.000Z";
     updatedAt := "2024-01-01T00:00:00.000Z" |}.

Definition hub : Product := product "a" "HUB-1" 25.
Definition cable : Product := product "b" "CBL-7" 9.
Definition hub_v2 : Product := product "a" "HUB-2" 30.

Definition first_page (l : list Product) (total_ : Z) : ProductsResponse :=
  {| data := l;
     pagination := {| page := 1; limit := 10; total := total_;
                      pages := (total_ + 9) / 10 |} |}.

(** Two cached list pages (one holding [hub], one not), an entry without
    data, and the detail entry of [hub]. *)
Definition client : Client :=
  {| cache := {| lists := {[ "all" := Some (first_page [hub; cable] 2);
                             "cables" := Some (first_page [cable] 1);
                             "pending" := None ]};
                 details := {[ "a" := Some hub ]} |};
     toasts := nil |}.

Definition books_only : ProductFilters (N := IntNumber) :=
  {| search := None; category := Some "Books"; minPrice := None;
     maxPrice := None; inStock := None |}.

Definition form : CreateProductModal.FormValues :=
  {| CreateProductModal.name := "USB hub";
     CreateProductModal.description := "";
     CreateProductModal.sku := "";
     CreateProductModal.category := "Electronics";
     CreateProductModal.price := "25";
     CreateProductModal.quantity := "4";
     CreateProductModal.minStockLevel := "5";
     CreateProductModal.images := nil |}.

Definition with_sku (s : string) (v : CreateProductModal.FormValues)
  : CreateProductModal.FormValues :=
  {| CreateProductModal.name := CreateProductModal.name v;
     CreateProductModal.description := CreateProductModal.description v;
     CreateProductModal.sku := s;
     CreateProductModal.category := CreateProductModal.category v;
     CreateProductModal.price := CreateProductModal.price v;
     CreateProductModal.quantity := CreateProductModal.quantity v;
     CreateProductModal.minStockLevel := CreateProductModal.minStockLevel v;
     CreateProductModal.images := CreateProductModal.images v |}.

(** The two numeric bounds on the sample texts (all non-negative and at
    least 0.01). *)
Definition never_below (text : string) : bool := false.



(** The image section with a URL typed in, surrounded by blanks. *)
Definition modal : CreateProductModal.Modal :=
  {| CreateProductModal.imageUrl := " https://cdn.example.com/hub.png ";
     CreateProductModal.imageError := "";
     CreateProductModal.values := form |}.

(** A browser that still holds a token from an earlier visit. *)
Definition returning_browser : Auth.Browser :=
  {| Auth.localStorage := {[ "token" := "jwt-1"; "theme" := "dark" ]};
     Auth.href := "/products" |}.

Definition in_store : ProductStore :=
  {| store_products := [hub; cable];
     store_currentProduct := None;
     store_isLoading := false;
     store_error := None;
     store_pagination := pagination (first_page nil 2);
     store_filters := no_filters |}.

End Sample.

(* ===================================================================== *)
(** * Properties of the built-ins                                         *)
(* ===================================================================== *)

Lemma digits_string_of_uint (d : Decimal.uint) :
  JS.digits (NilEmpty.string_of_uint d) = d.
Proof. induction d; simpl; congruence. Qed.

(** A printed natural number starts with a digit: neither white space nor
    a sign. *)
Lemma trim_start_string_of_uint (d : Decimal.uint) :
  JS.trim_start (NilEmpty.string_of_uint d) = NilEmpty.string_of_uint d.
Proof. destruct d; reflexivity. Qed.

Lemma parseInt10_string_of_uint (d : Decimal.uint) :
  d <> Decimal.Nil ->
  JS.parseInt10 (NilEmpty.string_of_uint d) = JS.Int (Z.of_int (Decimal.Pos d)).
Proof.
  intros Hd. unfold JS.parseInt10. rewrite trim_start_string_of_uint.
  pose proof (digits_string_of_uint d) as E.
  destruct d; try congruence;
    cbn [NilEmpty.string_of_uint] in *; cbn -[JS.digits Z.of_int];
    rewrite E; reflexivity.
Qed.

Lemma string_of_uint_nonnil (d : Decimal.uint) :
  d <> Decimal.Nil -> NilZero.string_of_uint d = NilEmpty.string_of_uint d.
Proof. destruct d; congruence || reflexivity. Qed.

Lemma parseInt10_minus (r : string) :
  JS.parseInt10 (String "-" r) =
  match JS.digits r with
  | Decimal.Nil => JS.PNaN
  | d => JS.Int (Z.of_int (Decimal.Neg d))
  end.
Proof. reflexivity. Qed.

(** [parseInt(n.toString(), 10)] is [n] for every integer [n]. *)
Lemma parseInt10_toString (z : Z) :
  JS.parseInt10 (JS.int_toString (JS.Int z)) = JS.Int z.
Proof.
  rewrite <- (DecimalZ.of_to z) at 2.
  destruct z as [|p|p]; [reflexivity| |]; cbn [JS.int_toString Z.to_int];
    pose proof (DecimalPos.Unsigned.to_uint_nonnil p) as Hp;
    unfold NilZero.string_of_int;
    rewrite string_of_uint_nonnil by assumption.
  - now apply parseInt10_string_of_uint.
  - rewrite parseInt10_minus, digits_string_of_uint.
    destruct (Pos.to_uint p); congruence.
Qed.

(** A printed integer is a truthy string. *)
Lemma int_toString_truthy (n : JS.pagenum) :
  JS.truthy (Some (JS.int_toString n)) = true.
Proof.
  destruct n as [|[|p|p]]; try reflexivity; cbn [JS.int_toString Z.to_int];
    unfold NilZero.string_of_int, NilZero.string_of_uint;
    destruct (Pos.to_uint p); reflexivity.
Qed.

Lemma truthy_inv (o : option string) :
  JS.truthy o = true -> exists c s, o = Some (String c s).
Proof. destruct o as [[|c s]|]; simpl; try discriminate; eauto. Qed.

Lemma parseInt10_not_numeric (s : string) :
  JS.not_numeric s = true -> JS.parseInt10 s = JS.PNaN.
Proof.
  unfold JS.not_numeric, JS.parseInt10.
  destruct (JS.trim_start s) as [|c r]; [reflexivity|].
  destruct c as [[|] [|] [|] [|] [|] [|] [|] [|]];
    intros H; (discriminate H || reflexivity).
Qed.

(** The integer-valued numbers satisfy the laws of the interface. *)
Lemma IntNumber_laws : JSNumberLaws IntNumber.
Proof.
  split.
  - intros [|z] Hx; [now elim Hx|]. apply parseInt10_toString.
  - apply int_toString_truthy.
  - apply parseInt10_not_numeric.
Qed.

(* ===================================================================== *)
(** * The URL contract                                                    *)
(* ===================================================================== *)

Section UrlProperties.
Context {N : JSNumber}.

(** What a printed price reads back as. *)
Lemma printed_number (laws : JSNumberLaws N) (x : number) :
  x <> NaN ->
  exists a r, number_toString x = String a r /\ parseFloat (String a r) = x.
Proof.
  intros Hx.
  destruct (truthy_inv _ (toString_truthy N laws x)) as (a & r & [= E]).
  exists a, r. split; [exact E|].
  rewrite <- E. now apply (parseFloat_toString N laws).
Qed.

Lemma printed_page (z : Z) :
  exists a r, JS.int_toString (JS.Int z) = String a r /\
              JS.parseInt10 (String a r) = JS.Int z.
Proof.
  destruct (truthy_inv _ (int_toString_truthy (JS.Int z))) as (a & r & [= E]).
  exists a, r. split; [exact E|]. rewrite <- E. apply parseInt10_toString.
Qed.

Lemma initialize_updateUrlParams (laws : JSNumberLaws N)
  (f : ProductFilters) (p : JS.pagenum) :
  minPrice f <> Some NaN -> maxPrice f <> Some NaN ->
  (url_filters (initialize (updateUrlParams f p)),
   url_page (initialize (updateUrlParams f p))) = url_normal_form f p.
Proof.
  destruct f as [s c mn mx st]; cbn [minPrice maxPrice]; intros Hmn Hmx.
  assert (Hpage : JS.gt p (JS.Int 1) = true ->
                  exists a r, JS.int_toString p = String a r /\
                              JS.parseInt10 (String a r) = p).
  { destruct p as [|z]; [discriminate|]. intros _. apply printed_page. }
  unfold url_normal_form, updateUrlParams, initialize.
  cbn [search category minPrice maxPrice inStock].
  destruct (JS.gt p (JS.Int 1));
    [destruct Hpage as (pa & pr & Ep & Pp); [reflexivity|]; rewrite Ep|clear Hpage];
    destruct s as [[|sa sr]|], c as [[|ca cr]|], st as [[|]|];
    (destruct mn as [x|];
     [destruct (printed_number laws x) as (xa & xr & Ex & Px);
      [congruence|]; rewrite Ex|]);
    (destruct mx as [y|];
     [destruct (printed_number laws y) as (ya & yr & Ey & Py);
      [congruence|]; rewrite Ey|]);
    cbn -[JS.parseInt10]; rewrite ?Px, ?Py, ?Pp; reflexivity.
Qed.

Lemma get_page_updateUrlParams (f : ProductFilters) (p : JS.pagenum) :
  URLSearchParams.get "page" (updateUrlParams f p) =
  if JS.gt p (JS.Int 1) then Some (JS.int_toString p) else None.
Proof.
  destruct f as [s c mn mx st]. unfold updateUrlParams.
  cbn [search category minPrice maxPrice inStock].
  destruct (JS.gt p (JS.Int 1)), s as [[|sa sr]|], c as [[|ca cr]|], mn, mx,
    st as [[|]|]; reflexivity.
Qed.

Lemma url_normal_form_encodable (f : ProductFilters) (p : JS.pagenum) :
  url_encodable f p -> url_normal_form f p = (f, p).
Proof.
  intros (Hs & Hc & _ & _ & Hst & z & -> & Hz).
  destruct f as [s c mn mx st]; cbn [search category inStock] in *.
  unfold url_normal_form; cbn [search category minPrice maxPrice inStock JS.gt].
  destruct s as [[|sa sr]|], c as [[|ca cr]|], st as [[|]|]; try congruence;
    (destruct (Z.ltb_spec 1 z); [reflexivity|]);
    (replace z with 1 by lia); reflexivity.
Qed.

(** C1.  URL round trip: for every valid committed state (prices that are
    numbers, a page that is an integer from 1 up to the largest safe
    integer), the mount-time parse of the query string written by
    [updateUrlParams] gives back an equal state: search, category and
    inStock as the page reads them ([filters.search || ''], truthiness),
    both prices and the page number; the filter set is the very same
    record whenever no field holds an empty string or [false]; and the
    [page] parameter is left out of the URL exactly when the page is 1. *)
Theorem url_round_trip (laws : JSNumberLaws N)
  (f : ProductFilters) (p : JS.pagenum) :
  valid_state f p ->
  same_filters (url_filters (initialize (updateUrlParams f p))) f /\
  url_page (initialize (updateUrlParams f p)) = p /\
  (search f <> Some "" -> category f <> Some "" -> inStock f <> Some false ->
   url_filters (initialize (updateUrlParams f p)) = f) /\
  (URLSearchParams.get "page" (updateUrlParams f p) = None <-> p = JS.Int 1).
Proof.
  intros (Hmn & Hmx & z & -> & Hz & _).
  pose proof (initialize_updateUrlParams laws f (JS.Int z) Hmn Hmx) as Hi.
  pose proof (f_equal fst Hi) as Hf. pose proof (f_equal snd Hi) as Hp.
  unfold url_normal_form in Hf, Hp. cbn [fst snd] in Hf, Hp. clear Hi.
  split; [|split; [|split; [|split]]].
  - rewrite Hf. unfold same_filters.
    cbn [search category minPrice maxPrice inStock].
    destruct (search f) as [[|? ?]|], (category f) as [[|? ?]|],
             (inStock f) as [[|]|]; repeat split.
  - rewrite Hp. cbn [JS.gt].
    destruct (Z.ltb_spec 1 z); [reflexivity|]. f_equal. lia.
  - intros Hs Hc Hst. rewrite Hf. destruct f as [s c mn mx st].
    cbn [search category minPrice maxPrice inStock] in *.
    destruct s as [[|? ?]|], c as [[|? ?]|], st as [[|]|];
      try reflexivity; congruence.
  - rewrite get_page_updateUrlParams. cbn [JS.gt].
    destruct (Z.ltb_spec 1 z); [discriminate|]. intros _. f_equal. lia.
  - intros [= ->]. rewrite get_page_updateUrlParams. reflexivity.
Qed.

(** C5 (evaluation at the failing input).  A [minPrice] parameter with no
    numeric prefix, such as [minPrice=abc], is not dropped by the mount
    effect: the filter set gets the present value NaN for that field. *)
Theorem initialize_malformed_price (laws : JSNumberLaws N)
  (params : URLSearchParams.t) (v : string) :
  URLSearchParams.get "minPrice" params = Some v ->
  v <> "" ->
  JS.not_numeric v = true ->
  minPrice (url_filters (initialize params)) = Some NaN /\
  minPrice (url_filters (initialize params)) <> None.
Proof.
  intros Hg Hv Hn. unfold initialize; cbn [url_filters minPrice]. rewrite Hg.
  destruct v as [|a r]; [congruence|].
  rewrite (parseFloat_not_numeric N laws _ Hn). split; congruence.
Qed.

(** The lenient part of the mount effect: an [inStock] parameter other
    than the text [true] leaves the field absent, and so does a missing or
    empty parameter for every other field. *)
Lemma initialize_lenient (params : URLSearchParams.t) :
  (URLSearchParams.get "inStock" params <> Some "true" ->
   inStock (url_filters (initialize params)) = None) /\
  (JS.truthy (URLSearchParams.get "search" params) = false ->
   search (url_filters (initialize params)) = None) /\
  (JS.truthy (URLSearchParams.get "category" params) = false ->
   category (url_filters (initialize params)) = None) /\
  (JS.truthy (URLSearchParams.get "minPrice" params) = false ->
   minPrice (url_filters (initialize params)) = None) /\
  (JS.truthy (URLSearchParams.get "maxPrice" params) = false ->
   maxPrice (url_filters (initialize params)) = None).
Proof.
  unfold initialize; cbn [url_filters search category minPrice maxPrice inStock].
  repeat split.
  - destruct (URLSearchParams.get "inStock" params) as [v|]; [|reflexivity].
    destruct (String.eqb_spec v "true"); congruence.
  - destruct (URLSearchParams.get "search" params) as [[|]|]; easy.
  - destruct (URLSearchParams.get "category" params) as [[|]|]; easy.
  - destruct (URLSearchParams.get "minPrice" params) as [[|]|]; easy.
  - destruct (URLSearchParams.get "maxPrice" params) as [[|]|]; easy.
Qed.

End UrlProperties.

Lemma url_round_trip_witness :
  let f : ProductFilters (N := IntNumber) :=
    {| search := Some "usb hub"; category := Some "";
       minPrice := Some (int_price 5); maxPrice := Some (int_price 120);
       inStock := Some true |} in
  valid_state f (JS.Int 3) /\
  updateUrlParams f (JS.Int 3) =
    [("search", "usb hub"); ("minPrice", "5"); ("maxPrice", "120");
     ("inStock", "true"); ("page", "3")] /\
  same_filters (url_filters (initialize (updateUrlParams f (JS.Int 3)))) f /\
  url_page (initialize (N := IntNumber) (updateUrlParams f (JS.Int 3))) = JS.Int 3.
Proof.
  intros f.
  assert (Hv : valid_state f (JS.Int 3)).
  { repeat split; try discriminate. exists 3.
    split; [reflexivity|]. unfold JS.MAX_SAFE_INTEGER. lia. }
  split; [exact Hv|]. split; [reflexivity|].
  split.
  - exact (proj1 (url_round_trip IntNumber_laws f (JS.Int 3) Hv)).
  - exact (proj1 (proj2 (url_round_trip IntNumber_laws f (JS.Int 3) Hv))).
Defined.

Lemma initialize_malformed_price_witness :
  minPrice (url_filters (initialize (N := IntNumber) [("minPrice", "abc")]))
  = Some JS.PNaN.
Proof.
  refine (proj1 (initialize_malformed_price (N := IntNumber) IntNumber_laws
                   [("minPrice", "abc")] "abc" _ _ _));
    [reflexivity|discriminate|reflexivity].
Defined.

(* ===================================================================== *)
(** * The synchronizer                                                    *)
(* ===================================================================== *)

Section SynchronizerProperties.
Context {N : JSNumber}.
Variable refreshes : URLSearchParams.t -> URLSearchParams.t -> bool.


Lemma last_cons {A : Type} (l : list A) (a d : A) :
  List.last (a :: l) d = List.last l a.
Proof.
  revert a d. induction l as [|x l IH]; intros a d; [reflexivity|].
  change (List.last (a :: x :: l) d) with (List.last (x :: l) d).
  rewrite !IH. reflexivity.
Qed.

(** A keystroke that comes before the delay has run out replaces the
    pending timeout: the earlier keystroke leaves no trace. *)
Lemma handleSearchChange_supersedes (st : Products) (t0 text : string) (gap : nat) :
  (gap < debounceDelay)%nat ->
  handleSearchChange text (elapse refreshes gap (handleSearchChange t0 st))
  = handleSearchChange text st.
Proof.
  intros Hgap. unfold elapse, handleSearchChange, set_timer.
  cbn -[Nat.leb debounceDelay].
  destruct (Nat.leb_spec debounceDelay gap); [lia|reflexivity].
Qed.

Lemma keystrokes_burst (calls : list (nat * string)) (st : Products) (t0 : string) :
  Forall (fun c => (fst c < debounceDelay)%nat) calls ->
  keystrokes refreshes calls (handleSearchChange t0 st)
  = handleSearchChange (List.last (List.map snd calls) t0) st.
Proof.
  intros Hgaps. revert t0.
  induction Hgaps as [|[gap text] calls Hgap _ IH]; intros t0; [reflexivity|].
  cbn [keystrokes]. rewrite handleSearchChange_supersedes by exact Hgap.
  rewrite IH. f_equal.
  change (List.map snd ((gap, text) :: calls)) with (text :: List.map snd calls).
  symmetry. apply last_cons.
Qed.

(** What the timeout callback of a keystroke leaves behind once the delay
    has run out. *)
Lemma elapse_handleSearchChange (st : Products) (text : string) (d : nat) :
  (debounceDelay <= d)%nat ->
  elapse refreshes d (handleSearchChange text st)
  = publish refreshes (with_search (memo_filters st) (Some text)) (JS.Int 1)
            (set_timer None text st).
Proof.
  intros Hd. unfold elapse, handleSearchChange.
  cbn -[Nat.leb debounceDelay publish].
  destruct (Nat.leb_spec debounceDelay d); [reflexivity|lia].
Qed.

(** C2.  Debounced search commit: a burst of [handleSearchChange] calls
    whose gaps are all shorter than the 300 ms delay leads to exactly one
    commit (one URL pushed, none during the burst); it sets
    [filters.search] to the last text of the burst and the page to 1, and
    nothing is left pending. *)
Theorem debounced_search_commit
  (st : Products) (t0 : string) (calls : list (nat * string)) (d : nat) :
  Forall (fun c => (fst c < debounceDelay)%nat) calls ->
  (debounceDelay <= d)%nat ->
  let final := List.last (List.map snd calls) t0 in
  let burst := keystrokes refreshes calls (handleSearchChange t0 st) in
  let st' := elapse refreshes d burst in
  (history burst = history st /\ filters burst = filters st) /\
  history st' = updateUrlParams (filters st') (JS.Int 1) :: history st /\
  search (filters st') = Some final /\
  currentPage st' = JS.Int 1 /\
  localSearchValue st' = final /\
  debounceTimeoutRef st' = None.
Proof.
  intros Hgaps Hd final burst st'. subst st' burst.
  rewrite (keystrokes_burst calls st t0 Hgaps). fold final.
  split; [split; reflexivity|].
  rewrite (elapse_handleSearchChange st final d Hd).
  repeat split; reflexivity.
Qed.

(** C10 (evaluation at the failing input).  The timeout callback writes
    back the filter set its closure captured, with only [search] replaced:
    a filter-panel submission made between the keystroke and the commit is
    overwritten, whatever the router does to the memoized handler. *)
Theorem debounce_commit_overwrites_filters
  (st : Products) (value : string) (gap : nat) (newFilters : ProductFilters) :
  (gap < debounceDelay)%nat ->
  let submitted :=
    handleFiltersChange refreshes newFilters
                        (elapse refreshes gap (handleSearchChange value st)) in
  let st' := elapse refreshes (debounceDelay - gap) submitted in
  filters submitted = newFilters /\
  filters st' = with_search (memo_filters st) (Some value).
Proof.
  intros Hgap submitted st'. subst st' submitted.
  unfold elapse, handleSearchChange, handleFiltersChange.
  cbn -[Nat.leb debounceDelay Nat.sub].
  destruct (Nat.leb_spec debounceDelay gap); [lia|].
  cbn -[Nat.leb debounceDelay Nat.sub].
  destruct (Nat.leb_spec (debounceDelay - gap) (debounceDelay - gap)); [|lia].
  split; reflexivity.
Qed.

(** [handlePageChange] stores the page it is given. *)
Lemma handlePageChange_page (page : JS.pagenum) (st : Products) :
  currentPage (handlePageChange refreshes page st) = page /\
  searchParams (handlePageChange refreshes page st)
  = updateUrlParams (filters st) page.
Proof. split; reflexivity. Qed.

Lemma totalPages_button (productsData : option ProductsResponse) (p : Z) :
  existsb (Z.eqb p) (pageButtons productsData) = true ->
  1 <= p <= totalPages productsData.
Proof.
  unfold pageButtons. rewrite existsb_exists.
  intros (q & Hin & Hq). apply Z.eqb_eq in Hq. subst q.
  apply List.in_map_iff in Hin. destruct Hin as (i & <- & Hi).
  apply List.in_seq in Hi. lia.
Qed.

(** The clamps of the pagination controls at work: from a current page
    within [1, totalPages], every control the page renders requests a page
    within [1, totalPages]. *)
Lemma page_controls_in_range
  (productsData : option ProductsResponse) (st : Products) (c : PageControl) (z : Z) :
  currentPage st = JS.Int z ->
  1 <= z <= totalPages productsData ->
  rendered productsData c = true ->
  (forall page, currentPage (handleGoToPage refreshes page st) = page) /\
  exists z', currentPage (click refreshes productsData c st) = JS.Int z' /\
             1 <= z' <= totalPages productsData.
Proof.
  intros Hcur Hz Hc. split; [reflexivity|].
  destruct c as [| |p|]; cbn [click rendered] in *.
  - exists (Z.max 1 (z - 1)). unfold handlePreviousPage.
    rewrite (proj1 (handlePageChange_page _ _)), Hcur. split; [reflexivity|lia].
  - exists (Z.min (totalPages productsData) (z + 1)). unfold handleNextPage.
    rewrite (proj1 (handlePageChange_page _ _)), Hcur. split; [reflexivity|lia].
  - exists p. split; [reflexivity|]. now apply totalPages_button.
  - exists (totalPages productsData). split; [reflexivity|lia].
Qed.

(** C4 (evaluation at the failing input).  The next-page handler clamps
    the request from above only ([Math.min(totalPages, currentPage + 1)]),
    where the previous-page handler clamps from below
    ([Math.max(1, currentPage - 1)]).  When the shown list entry holds a
    record but its total gives no page (the delete patch lowers the total
    of every cached entry), the next button is rendered and enabled on
    every page [>= 1], and pressing it publishes the page [totalPages],
    which is below 1: the page number leaves [1, totalPages]. *)
Theorem next_page_below_range
  (productsData : option ProductsResponse) (st : Products) (z : Z) :
  currentPage st = JS.Int z ->
  1 <= z ->
  products productsData <> [] ->
  totalPages productsData < 1 ->
  clickable productsData false st NextButton = true /\
  currentPage (click refreshes productsData NextButton st)
  = JS.Int (totalPages productsData) /\
  searchParams (click refreshes productsData NextButton st)
  = updateUrlParams (filters st) (JS.Int (totalPages productsData)) /\
  (forall z', currentPage (click refreshes productsData NextButton st) = JS.Int z' ->
              ~ 1 <= z').
Proof.
  intros Hcur Hz Hp Ht.
  assert (Hc : currentPage (click refreshes productsData NextButton st)
               = JS.Int (totalPages productsData)).
  { cbn [click]. unfold handleNextPage.
    rewrite (proj1 (handlePageChange_page _ _)), Hcur. cbn [JS.add JS.min].
    f_equal. lia. }
  split; [|split; [exact Hc|split]].
  - unfold clickable, pagination_shown, disabled. rewrite Hcur.
    cbn [rendered JS.strict_eq negb andb orb].
    destruct (products productsData) as [|x l]; [now elim Hp|].
    cbn [length Nat.eqb negb andb].
    destruct (Z.eqb_spec z (totalPages productsData)); [lia|reflexivity].
  - cbn [click]. unfold handleNextPage.
    rewrite (proj2 (handlePageChange_page _ _)), Hcur. cbn [JS.add JS.min].
    do 2 f_equal. lia.
  - intros z' Hz'. rewrite Hc in Hz'. injection Hz' as <-. lia.
Qed.

(** C8.  Delete-last-item step back: when the delete succeeds, the render
    showed a single item and the current page is above 1, the handler
    requests the previous page and rewrites the URL for it, leaving the
    [page] parameter out when the new page is 1. *)
Theorem delete_last_item_steps_back
  (products : list Product) (response : ApiResponse unit) (st : Products)
  (p : Product) (z : Z) :
  productToDelete st = Some p ->
  success response = true ->
  length products = 1%nat ->
  currentPage st = JS.Int z ->
  1 < z ->
  let st' := handleDeleteConfirm refreshes products (Resolved response) st in
  currentPage st' = JS.Int (z - 1) /\
  filters st' = filters st /\
  searchParams st' = updateUrlParams (filters st) (JS.Int (z - 1)) /\
  URLSearchParams.get "page" (searchParams st')
  = (if z - 1 =? 1 then None else Some (JS.int_toString (JS.Int (z - 1)))).
Proof.
  intros Hp Hs Hlen Hcur Hz st'. subst st'. unfold handleDeleteConfirm.
  rewrite Hp. cbn [unwrap_delete]. rewrite Hs, Hlen, Hcur. cbn [JS.gt].
  destruct (Z.ltb_spec 1 z); [|lia]. cbn [Nat.eqb andb JS.sub].
  repeat split; cbn [publish searchParams].
  rewrite get_page_updateUrlParams. cbn [JS.gt].
  destruct (Z.eqb_spec (z - 1) 1) as [E|E].
  - rewrite E. reflexivity.
  - destruct (Z.ltb_spec 1 (z - 1)); [reflexivity|lia].
Qed.

End SynchronizerProperties.

(** The spec's scenario for C2: "a", then "ab" 50 ms later, then quiet. *)
Lemma debounced_search_commit_witness :
  let st := mount (N := IntNumber) [] in
  let st' := elapse on_query_change 300
               (keystrokes on_query_change [(50%nat, "ab")]
                           (handleSearchChange "a" st)) in
  history st' = [[("search", "ab")]] /\
  search (filters st') = Some "ab" /\
  currentPage st' = JS.Int 1.
Proof.
  intros st st'.
  assert (Hgaps : Forall (fun c : nat * string => (fst c < debounceDelay)%nat)
                         [(50%nat, "ab")]).
  { constructor; [cbn; unfold debounceDelay; lia|constructor]. }
  assert (Hd : (debounceDelay <= 300)%nat) by (unfold debounceDelay; lia).
  destruct (debounced_search_commit on_query_change st "a" [(50%nat, "ab")] 300
              Hgaps Hd) as (_ & H1 & H2 & H3 & _).
  split; [exact H1|]. split; [exact H2|exact H3].
Defined.

(** The failing scenario of C10: the page is opened without filters, "a" is
    typed, the filter panel submits [category = Books] 100 ms later, and
    the commit that fires 200 ms after that drops the category again. *)
Lemma debounce_commit_overwrites_filters_witness :
  let st := mount (N := IntNumber) [] in
  let submitted := handleFiltersChange on_query_change Sample.books_only
                     (elapse on_query_change 100 (handleSearchChange "a" st)) in
  let st' := elapse on_query_change 200 submitted in
  category (filters submitted) = Some "Books" /\
  category (filters st') = None /\
  searchParams st' = [("search", "a")].
Proof.
  intros st submitted st'.
  assert (Hgap : (100 < debounceDelay)%nat) by (unfold debounceDelay; lia).
  destruct (debounce_commit_overwrites_filters on_query_change st "a" 100
              Sample.books_only Hgap) as [H1 H2].
  split; [exact (f_equal category H1)|].
  split; [exact (f_equal category H2)|reflexivity].
Defined.

(** The same defect without any race: opened on [?category=Books], the
    page commits a typed search into the empty filter set of the first
    render. *)
Example stale_filters_after_mount :
  let st := mount (N := IntNumber) [("category", "Books")] in
  category (filters st) = Some "Books" /\
  filters (elapse on_query_change 300 (handleSearchChange "a" st))
  = with_search no_filters (Some "a").
Proof. split; reflexivity. Qed.

(** The failing input of C4: the list entry ["cables"] after the delete of
    another list's product shows one record under a total of 0; on page 1
    the next button is enabled and publishes page 0. *)
Lemma next_page_below_range_witness :
  let q' := deleteProduct_onSuccess "a" Sample.client in
  let productsData := Some (removeProduct "a" (Sample.first_page [Sample.cable] 1)) in
  let st := mount (N := IntNumber) [] in
  lists (cache q') !! "cables" = Some productsData /\
  products productsData = [Sample.cable] /\
  totalPages productsData = 0 /\
  currentPage st = JS.Int 1 /\
  clickable productsData false st NextButton = true /\
  currentPage (click on_query_change productsData NextButton st) = JS.Int 0 /\
  searchParams (click on_query_change productsData NextButton st) = [].
Proof.
  intros q' productsData st.
  split; [reflexivity|]. split; [reflexivity|]. split; [reflexivity|].
  split; [reflexivity|].
  assert (Hp : products productsData <> []) by discriminate.
  assert (Ht : totalPages productsData < 1) by (change (totalPages productsData) with 0; lia).
  assert (Hz : 1 <= 1) by lia.
  pose proof (next_page_below_range on_query_change productsData st 1
                eq_refl Hz Hp Ht) as (H1 & H2 & H3 & _).
  split; [exact H1|]. split; [exact H2|exact H3].
Defined.

Lemma page_controls_in_range_witness :
  let productsData := Some (Sample.first_page [Sample.hub] 25) in
  let st := mount (N := IntNumber) [("page", "3")] in
  currentPage (click on_query_change productsData NextButton st) = JS.Int 3 /\
  exists z', currentPage (click on_query_change productsData PreviousButton st)
             = JS.Int z' /\ 1 <= z' <= totalPages productsData.
Proof.
  intros productsData st. split; [reflexivity|].
  refine (proj2 (page_controls_in_range on_query_change productsData st
                   PreviousButton 3 _ _ _)); [reflexivity| |reflexivity].
  change (totalPages productsData) with 3. lia.
Defined.

(** The spec's scenario for C8, and the step from page 2 to page 1. *)
Lemma delete_last_item_steps_back_witness :
  let ok := {| success := true; message := "deleted"; payload := None |} in
  let st3 := handleDeleteClick Sample.hub (mount (N := IntNumber) [("page", "3")]) in
  let st2 := handleDeleteClick Sample.hub (mount (N := IntNumber) [("page", "2")]) in
  let st3' := handleDeleteConfirm on_query_change [Sample.hub] (Resolved ok) st3 in
  let st2' := handleDeleteConfirm on_query_change [Sample.hub] (Resolved ok) st2 in
  (currentPage st3' = JS.Int 2 /\ searchParams st3' = [("page", "2")]) /\
  (currentPage st2' = JS.Int 1 /\ searchParams st2' = []).
Proof.
  intros ok st3 st2 st3' st2'.
  split; [|split; reflexivity].
  assert (H : 1 < 3) by lia.
  destruct (delete_last_item_steps_back on_query_change [Sample.hub] ok st3
              Sample.hub 3 eq_refl eq_refl eq_refl eq_refl H) as (H1 & _ & H3 & _).
  split; [exact H1|exact H3].
Defined.

(* ===================================================================== *)
(** * Cache patches                                                       *)
(* ===================================================================== *)

Section CacheProperties.
Context {N : JSNumber}.

Lemma lookup_setListsData (updater : ProductsResponse -> ProductsResponse)
  (c : QueryCache) (hash : string) :
  lists (setListsData updater c) !! hash
  = option_map updater <$> (lists c !! hash).
Proof. unfold setListsData; cbn [lists]. apply lookup_fmap. Qed.

Lemma removeProduct_no_id (deletedId : string) (r : ProductsResponse) (p : Product) :
  In p (data (removeProduct deletedId r)) -> _id p <> deletedId.
Proof.
  unfold removeProduct; cbn [data]. rewrite List.filter_In. intros [_ H].
  destruct (String.eqb_spec (_id p) deletedId); [discriminate|assumption].
Qed.

(** C3 (as amended).  Remove patch: after a successful delete no cached
    list entry contains a record with the deleted id, the records with
    other ids stay in order, the detail entry of the id is evicted, and the
    total of every cached list entry that has data, whether or not it
    contained the id, becomes [max(0, total - 1)]: one less when it was at
    least 1, never below 0. *)
Theorem remove_patch (deletedId : string) (q : Client) (hash : string) :
  let q' := deleteProduct_onSuccess deletedId q in
  details (cache q') !! deletedId = None /\
  (forall r', lists (cache q') !! hash = Some (Some r') ->
              forall p, In p (data r') -> _id p <> deletedId) /\
  (forall r, lists (cache q) !! hash = Some (Some r) ->
     exists r', lists (cache q') !! hash = Some (Some r') /\
       data r' = List.filter (fun p => negb (String.eqb (_id p) deletedId)) (data r) /\
       total (pagination r') = Z.max 0 (total (pagination r) - 1) /\
       (1 <= total (pagination r) ->
        total (pagination r') = total (pagination r) - 1) /\
       0 <= total (pagination r')).
Proof.
  intros q'. subst q'. unfold deleteProduct_onSuccess; cbn [cache].
  split; [|split].
  - cbn [setListsData details]. apply lookup_delete_eq.
  - intros r'. rewrite lookup_setListsData; cbn [lists].
    destruct (lists (cache q) !! hash) as [[r|]|]; cbn; try discriminate.
    intros [= <-] p. apply removeProduct_no_id.
  - intros r Hr. rewrite lookup_setListsData; cbn [lists]. rewrite Hr.
    exists (removeProduct deletedId r). cbn.
    repeat split; lia.
Qed.

Lemma lookup_replace (updatedProduct : Product) (l : list Product) (i : nat) :
  List.map (fun product : Product =>
              if String.eqb (_id product) (_id updatedProduct)
              then updatedProduct else product) l !! i
  = (fun product : Product =>
       if String.eqb (_id product) (_id updatedProduct)
       then updatedProduct else product) <$> (l !! i).
Proof. apply (list_lookup_fmap _ l i). Qed.

(** C6.  Replace patch: after a successful update whose result carries the
    id, every cached list entry has, position by position, the updated
    record where the id matched and the old record elsewhere; its
    pagination is unchanged; the detail entry of the id holds the updated
    record and the other detail entries are unchanged. *)
Theorem replace_patch (id : string) (updated : Product) (q : Client) (hash : string) :
  _id updated = id ->
  let q' := updateProduct_onSuccess updated q in
  details (cache q') !! id = Some (Some updated) /\
  (forall id', id' <> id -> details (cache q') !! id' = details (cache q) !! id') /\
  (forall r, lists (cache q) !! hash = Some (Some r) ->
     exists r', lists (cache q') !! hash = Some (Some r') /\
       length (data r') = length (data r) /\
       pagination r' = pagination r /\
       forall (i : nat) (p : Product), data r !! i = Some p ->
         (_id p = id -> data r' !! i = Some updated) /\
         (_id p <> id -> data r' !! i = Some p)) /\
  (forall r', lists (cache q') !! hash = Some (Some r') ->
     forall p, In p (data r') -> _id p = id -> p = updated).
Proof.
  intros <- q'. subst q'. unfold updateProduct_onSuccess; cbn [cache].
  split; [|split; [|split]].
  - cbn [setListsData details]. apply lookup_insert_eq.
  - intros id' Hne. cbn [setListsData details]. now apply lookup_insert_ne.
  - intros r Hr. rewrite lookup_setListsData; cbn [lists]. rewrite Hr.
    exists (replaceProduct updated r). cbn [fmap option_fmap option_map].
    split; [reflexivity|]. unfold replaceProduct; cbn [data pagination].
    split; [apply List.length_map|]. split; [reflexivity|].
    intros i p Hi. rewrite lookup_replace, Hi. cbn.
    destruct (String.eqb_spec (_id p) (_id updated)); split; congruence.
  - intros r'. rewrite lookup_setListsData; cbn [lists].
    destruct (lists (cache q) !! hash) as [[r|]|]; cbn; try discriminate.
    intros [= <-] p. unfold replaceProduct; cbn [data].
    rewrite List.in_map_iff. intros (p0 & Hp0 & _) Hid.
    destruct (String.eqb_spec (_id p0) (_id updated)); congruence.
Qed.

(** C7.  Failure atomicity: a store action, a hook mutation or a list
    fetch that ends in a network or application-level failure leaves the
    product data where it was (the store's products, current product and
    pagination; the whole query cache); all it adds is the error message. *)
Theorem failure_atomicity :
  (forall (c : StoreCall) (st : ProductStore) (e : Thrown),
     store_failure c = Some e ->
     store_products (store_run c st) = store_products st /\
     store_currentProduct (store_run c st) = store_currentProduct st /\
     store_pagination (store_run c st) = store_pagination st /\
     store_filters (store_run c st) = store_filters st /\
     exists text, store_error (store_run c st) = Some text) /\
  (forall (c : MutationCall) (q : Client) (e : Thrown),
     mutation_failure c = Some e ->
     cache (mutation_run c q) = cache q /\
     exists text, toasts (mutation_run c q) = toast_error text :: toasts q) /\
  (forall (hash : string) (s : Settled ProductsResponse) (c : QueryCache) (e : Thrown),
     snd (useProducts_settle hash s c) = Some e ->
     fst (useProducts_settle hash s c) = c).
Proof.
  split; [|split].
  - intros c st e.
    destruct c as [s|s|s|id s|id s|s]; cbn [store_failure store_run];
      unfold fetchProducts, fetchProduct, createProduct, updateProduct,
             deleteProduct, searchProducts;
      match goal with
      | |- context [unwrap ?f ?s] => destruct (unwrap f s)
      | |- context [unwrap_delete ?i ?s] => destruct (unwrap_delete i s)
      end; try discriminate; intros _; cbn; eauto 10.
  - intros c q e.
    destruct c as [s|s|id s]; cbn [mutation_failure mutation_run];
      unfold createProduct_mutate, updateProduct_mutate, deleteProduct_mutate;
      match goal with
      | |- context [unwrap ?f ?s] => destruct (unwrap f s)
      | |- context [unwrap_delete ?i ?s] => destruct (unwrap_delete i s)
      end; try discriminate; intros _; cbn; eauto.
  - intros hash s c e. unfold useProducts_settle.
    destruct (unwrap "Failed to fetch products" s); cbn; [discriminate|reflexivity].
Qed.

End CacheProperties.

(** C3 fails as stated: the entry ["cables"] never held the deleted
    product, and its total still goes from 1 to 0. *)
Lemma remove_patch_counterexample :
  let q' := deleteProduct_onSuccess "a" Sample.client in
  lists (cache Sample.client) !! "cables"
    = Some (Some (Sample.first_page [Sample.cable] 1)) /\
  (forall p, In p [Sample.cable] -> _id p <> "a") /\
  option_map (option_map (fun r : ProductsResponse (N := IntNumber) =>
                            total (pagination r)))
             (lists (cache q') !! "cables") = Some (Some 0).
Proof.
  split; [reflexivity|]. split; [|reflexivity].
  intros p [<-|[]]. discriminate.
Qed.

Lemma remove_patch_witness :
  let q' := deleteProduct_onSuccess "a" Sample.client in
  details (cache q') !! "a" = None /\
  exists r', lists (cache q') !! "all" = Some (Some r') /\
             data r' = [Sample.cable] /\ total (pagination r') = 1.
Proof.
  intros q'.
  destruct (remove_patch "a" Sample.client "all") as (H1 & _ & H3).
  split; [exact H1|].
  destruct (H3 (Sample.first_page [Sample.hub; Sample.cable] 2) eq_refl)
    as (r' & Hr' & Hd & Ht & _).
  exists r'. split; [exact Hr'|]. split; [exact Hd|exact Ht].
Defined.

Lemma replace_patch_witness :
  let q' := updateProduct_onSuccess Sample.hub_v2 Sample.client in
  details (cache q') !! "a" = Some (Some Sample.hub_v2) /\
  exists r', lists (cache q') !! "all" = Some (Some r') /\
             data r' !! 0%nat = Some Sample.hub_v2 /\
             data r' !! 1%nat = Some Sample.cable.
Proof.
  intros q'.
  destruct (replace_patch "a" Sample.hub_v2 Sample.client "all" eq_refl)
    as (H1 & _ & H3 & _).
  split; [exact H1|].
  destruct (H3 (Sample.first_page [Sample.hub; Sample.cable] 2) eq_refl)
    as (r' & Hr' & _ & _ & Hi).
  exists r'. split; [exact Hr'|]. split.
  - exact (proj1 (Hi 0%nat Sample.hub eq_refl) eq_refl).
  - refine (proj2 (Hi 1%nat Sample.cable eq_refl) _). discriminate.
Defined.

Lemma failure_atomicity_witness :
  let offline : StoreCall (N := IntNumber) :=
    CallFetchProducts (Rejected (JsError "Network Error")) in
  let refused : MutationCall (N := IntNumber) :=
    MutateCreate (Resolved {| success := false; message := "SKU already exists";
                              payload := None |}) in
  let st : ProductStore :=
    {| store_products := [Sample.hub; Sample.cable];
       store_currentProduct := None; store_isLoading := false;
       store_error := None;
       store_pagination := pagination (Sample.first_page nil 2);
       store_filters := no_filters |} in
  store_products (store_run offline st) = [Sample.hub; Sample.cable] /\
  store_error (store_run offline st) = Some "Network Error" /\
  cache (mutation_run refused Sample.client) = cache Sample.client /\
  toasts (mutation_run refused Sample.client) = [toast_error "SKU already exists"].
Proof.
  intros offline refused st.
  destruct (failure_atomicity (N := IntNumber)) as (Hstore & Hmut & _).
  destruct (Hstore offline st (JsError "Network Error") eq_refl) as (H1 & _).
  destruct (Hmut refused Sample.client
              (JsError "SKU already exists") eq_refl) as (H2 & _).
  split; [exact H1|]. split; [reflexivity|]. split; [exact H2|reflexivity].
Defined.

(* ===================================================================== *)
(** * The create-product form                                             *)
(* ===================================================================== *)

Section FormProperties.
Import CreateProductModal.
Variable below_cent below_zero : string -> bool.
Variable toUpperCase : string -> string.

Lemma invalid_field_blocks (f : Field) (v : FormValues) (m : string) :
  error_of below_cent below_zero f v = Some m ->
  handleSubmit below_cent below_zero toUpperCase v = nil.
Proof.
  intros He. unfold handleSubmit.
  destruct (isValid below_cent below_zero v) eqn:Hv; [|reflexivity].
  unfold isValid in Hv. rewrite forallb_forall in Hv.
  assert (Hin : In f (fields)) by (destruct f; cbn; tauto).
  specialize (Hv f Hin). rewrite He in Hv. discriminate.
Qed.

(** C9 (as amended).  An SKU of fewer than 3 characters blocks the
    submission: no create request is sent.  The field message is "SKU must
    be at least 3 characters" for an SKU of 1 or 2 characters and "SKU is
    required" for the empty SKU. *)
Theorem short_sku_blocks_submission (v : FormValues) :
  (String.length (sku v) < 3)%nat ->
  handleSubmit below_cent below_zero toUpperCase v = nil /\
  error_of below_cent below_zero f_sku v
  = Some (if String.eqb (sku v) "" then "SKU is required"
          else "SKU must be at least 3 characters").
Proof.
  intros Hlen.
  assert (He : error_of below_cent below_zero f_sku v
               = Some (if String.eqb (sku v) "" then "SKU is required"
                       else "SKU must be at least 3 characters")).
  { unfold error_of; cbn [value_of rules].
    destruct (sku v) as [|a [|b [|c r]]]; cbn in Hlen; try lia; reflexivity. }
  split; [|exact He].
  exact (invalid_field_blocks f_sku v _ He).
Qed.

End FormProperties.

(** C9 fails as stated on the empty SKU: the message is "SKU is required". *)
Lemma short_sku_counterexample :
  (String.length (CreateProductModal.sku Sample.form) < 3)%nat /\
  CreateProductModal.error_of Sample.never_below Sample.never_below
    CreateProductModal.f_sku Sample.form
  = Some "SKU is required" /\
  CreateProductModal.error_of Sample.never_below Sample.never_below
    CreateProductModal.f_sku Sample.form
  <> Some "SKU must be at least 3 characters".
Proof. split; [cbn; lia|]. split; [reflexivity|discriminate]. Qed.

(** The spec's scenario for C9: the SKU "AB". *)
Lemma short_sku_blocks_submission_witness :
  let v := Sample.with_sku "AB" Sample.form in
  CreateProductModal.handleSubmit Sample.never_below Sample.never_below
    CreateProductModal.upper_ascii v = nil /\
  CreateProductModal.error_of Sample.never_below Sample.never_below
    CreateProductModal.f_sku v
  = Some "SKU must be at least 3 characters" /\
  CreateProductModal.handleSubmit Sample.never_below Sample.never_below
    CreateProductModal.upper_ascii
    (Sample.with_sku "ab-1" Sample.form)
  = [Sample.with_sku "AB-1" Sample.form].
Proof.
  intros v.
  assert (Hlen : (String.length (CreateProductModal.sku v) < 3)%nat) by (cbn; lia).
  destruct (short_sku_blocks_submission Sample.never_below Sample.never_below
              CreateProductModal.upper_ascii v Hlen) as [H1 H2].
  split; [exact H1|]. split; [exact H2|reflexivity].
Defined.

(* ===================================================================== *)
(** * The page over whole event traces                                    *)
(* ===================================================================== *)

Section PageProperties.
Context {N : JSNumber}.
Variable refreshes : URLSearchParams.t -> URLSearchParams.t -> bool.

Lemma get_search_updateUrlParams (f : ProductFilters) (p : JS.pagenum) :
  URLSearchParams.get "search" (updateUrlParams f p) =
  match search f with
  | Some (String c s) => Some (String c s)
  | _ => None
  end.
Proof.
  destruct f as [s c mn mx st]. unfold updateUrlParams.
  cbn [search category minPrice maxPrice inStock].
  destruct (JS.gt p (JS.Int 1)), s as [[|sa sr]|], c as [[|ca cr]|], mn, mx,
    st as [[|]|]; reflexivity.
Qed.

(** Every handler leaves the URL equal to the encoding of the state, and
    either pushes that URL or leaves URL and history alone. *)
Lemma handle_keeps_url (e : Event) (st : Products) :
  searchParams st = updateUrlParams (filters st) (currentPage st) ->
  let st' := handle refreshes e st in
  searchParams st' = updateUrlParams (filters st') (currentPage st') /\
  (history st' = searchParams st' :: history st \/
   history st' = history st /\ searchParams st' = searchParams st).
Proof.
  intros Hst. destruct e; cbn [handle].
  - split; [exact Hst|right; split; reflexivity].
  - unfold elapse. destruct (debounceTimeoutRef st) as [t|].
    + destruct (remaining t <=? ms)%nat.
      * split; [reflexivity|left; reflexivity].
      * split; [exact Hst|right; split; reflexivity].
    + split; [exact Hst|right; split; reflexivity].
  - split; [reflexivity|left; reflexivity].
  - split; [reflexivity|left; reflexivity].
  - destruct c; split; try reflexivity; left; reflexivity.
  - split; [exact Hst|right; split; reflexivity].
  - split; [exact Hst|right; split; reflexivity].
Qed.

Lemma run_keeps_url (events : list Event) (st : Products) :
  searchParams st = updateUrlParams (filters st) (currentPage st) ->
  let st' := run refreshes events st in
  searchParams st' = updateUrlParams (filters st') (currentPage st') /\
  (hd_error (history st') = Some (searchParams st') \/
   history st' = history st /\ searchParams st' = searchParams st).
Proof.
  intros Hst st'. subst st'. unfold run.
  enough (H : forall cur,
             searchParams cur = updateUrlParams (filters cur) (currentPage cur) ->
             hd_error (history cur) = Some (searchParams cur) \/
             history cur = history st /\ searchParams cur = searchParams st ->
             let fin := fold_left (fun st e => handle refreshes e st) events cur in
             searchParams fin = updateUrlParams (filters fin) (currentPage fin) /\
             (hd_error (history fin) = Some (searchParams fin) \/
              history fin = history st /\ searchParams fin = searchParams st)).
  { apply H; [exact Hst|right; split; reflexivity]. }
  induction events as [|e events IH]; intros cur Hcur Hh; cbn [fold_left].
  - split; assumption.
  - destruct (handle_keeps_url e cur Hcur) as [H1 H2]. apply IH; [exact H1|].
    destruct H2 as [H2|[H2 H3]].
    + left. rewrite H2. reflexivity.
    + rewrite H2, H3. exact Hh.
Qed.

(** X1.  URL/state agreement of the handlers that run to completion at
    once: from a state whose URL encodes its filters and page, after any
    sequence of typing, waiting, clearing, filter submissions, pagination
    clicks and opening or cancelling the delete dialog, the URL is again
    the encoding of the current filters and page; and unless no URL was
    pushed at all, the newest history entry is the current URL.  A
    confirmed delete is not among these events: its handler writes the URL
    after the request has settled, from the filters and the page of the
    render of the click. *)
Theorem url_always_encodes_state (events : list Event) (st : Products) :
  searchParams st = updateUrlParams (filters st) (currentPage st) ->
  let st' := run refreshes events st in
  searchParams st' = updateUrlParams (filters st') (currentPage st') /\
  (hd_error (history st') = Some (searchParams st') \/
   history st' = history st /\ searchParams st' = searchParams st).
Proof.
  intros Hst. now apply run_keeps_url.
Qed.

(** X2.  [clearSearch] does not cancel a pending debounce.  Pressing the
    clear button while a keystroke is pending empties the input and removes
    the committed search at once, but the pending timeout still runs: once
    the delay has passed the typed text is committed as the search again
    although the input stays empty. *)
Theorem clearSearch_keeps_pending_commit (st : Products) (v : string) (d : nat) :
  (debounceDelay <= d)%nat ->
  let cleared := clearSearch refreshes (handleSearchChange v st) in
  let later := elapse refreshes d cleared in
  (search (filters cleared) = None /\
   localSearchValue cleared = "" /\
   currentPage cleared = JS.Int 1 /\
   URLSearchParams.get "search" (searchParams cleared) = None) /\
  (search (filters later) = Some v /\
   localSearchValue later = "" /\
   history later = searchParams later :: searchParams cleared :: history st).
Proof.
  intros Hd cleared later. subst later cleared.
  split.
  - repeat split. cbn [clearSearch publish searchParams].
    rewrite get_search_updateUrlParams. reflexivity.
  - unfold elapse, clearSearch, handleSearchChange.
    cbn -[Nat.leb debounceDelay].
    destruct (Nat.leb_spec debounceDelay d); [|lia].
    repeat split.
Qed.

(** X3.  Teardown: when the page is unmounted while the commit of a burst
    of keystrokes is still pending, that commit never happens; filters,
    page, URL and history stay what they were before the burst, however
    long one waits. *)
Theorem unmount_cancels_commit
  (st : Products) (t0 : string) (calls : list (nat * string)) (d : nat) :
  Forall (fun c => (fst c < debounceDelay)%nat) calls ->
  let gone := unmount (keystrokes refreshes calls (handleSearchChange t0 st)) in
  elapse refreshes d gone = gone /\
  filters gone = filters st /\
  currentPage gone = currentPage st /\
  searchParams gone = searchParams st /\
  history gone = history st.
Proof.
  intros Hgaps gone. subst gone.
  rewrite (keystrokes_burst refreshes calls st t0 Hgaps).
  repeat split.
Qed.

End PageProperties.

(* ===================================================================== *)
(** * The filter panel                                                    *)
(* ===================================================================== *)

Section PanelProperties.
Context {N : JSNumber}.
Variable refreshes : URLSearchParams.t -> URLSearchParams.t -> bool.

Lemma edit_keeps_search (e : PanelEdit) (prev : ProductFilters) :
  search (edit e prev) = search prev.
Proof. destruct e as [cat checked|[|] value|checked]; reflexivity. Qed.

Lemma elapse_no_fire (ms : nat) (st : Products) :
  fires ms st = false -> filters (elapse refreshes ms st) = filters st.
Proof.
  unfold fires, elapse. destruct (debounceTimeoutRef st) as [t|]; [|reflexivity].
  intros ->. reflexivity.
Qed.

Lemma act_keeps_search_copy (a : Action) (s : Screen) :
  search (localFilters s) = search (filters (products_page s)) ->
  search (localFilters (act refreshes a s))
  = search (filters (products_page (act refreshes a s))).
Proof.
  intros Hs. destruct a; cbn [act products_page localFilters]; try reflexivity;
    try exact Hs.
  - destruct (fires ms (products_page s)) eqn:Hf; [reflexivity|].
    rewrite (elapse_no_fire _ _ Hf). exact Hs.
  - rewrite edit_keeps_search. exact Hs.
  - destruct c; exact Hs.
Qed.

(** X4.  The filter panel never changes the committed search.  Whatever
    the user has done since the page was opened, the panel's working copy
    carries the committed search text, so both of its buttons, Apply and
    Clear filters, publish a filter set whose search is the one committed
    before the click, with the page reset to 1. *)
Theorem panel_never_changes_search (url : URLSearchParams.t) (actions : list Action) :
  let s := session refreshes actions (open_screen url) in
  let before := products_page s in
  search (localFilters s) = search (filters before) /\
  (let after := products_page (act refreshes ApplyFilters s) in
   search (filters after) = search (filters before) /\
   currentPage after = JS.Int 1) /\
  (let after := products_page (act refreshes ClearFilters s) in
   filters after = clearedFilters (filters before) /\
   search (filters after) = search (filters before) /\
   currentPage after = JS.Int 1).
Proof.
  intros s before.
  assert (Hs : search (localFilters s) = search (filters before)).
  { subst before s. unfold session.
    assert (H0 : search (localFilters (open_screen url))
                 = search (filters (products_page (open_screen url))))
      by reflexivity.
    revert H0. generalize (open_screen url).
    induction actions as [|a actions IH]; intros s0 H0; cbn [fold_left].
    - exact H0.
    - apply IH. now apply act_keeps_search_copy. }
  split; [exact Hs|]. split.
  - split; [exact Hs|reflexivity].
  - repeat split.
Qed.

(** X5.  The badge of the filter button: it is shown exactly when the
    count it displays is at least 1, the count never exceeds 3 (the two
    price bounds count once), the search text never counts, and right
    after Clear filters there is no badge. *)
Theorem active_filter_badge (f : ProductFilters) :
  (hasActiveFilters f = true <-> (0 < getActiveFilterCount f)%nat) /\
  (getActiveFilterCount f <= 3)%nat /\
  getActiveFilterCount (with_search f None) = getActiveFilterCount f /\
  hasActiveFilters (clearedFilters f) = false /\
  getActiveFilterCount (clearedFilters f) = 0%nat.
Proof.
  destruct f as [s c mn mx st]. unfold hasActiveFilters, getActiveFilterCount.
  cbn [search category minPrice maxPrice inStock with_search clearedFilters
       is_defined is_true JS.truthy orb].
  destruct c as [[|ca cr]|], mn, mx, st as [[|]|]; cbn; repeat split;
    intros; try lia; try discriminate; reflexivity.
Qed.

End PanelProperties.

(* ===================================================================== *)
(** * Pagination arithmetic                                               *)
(* ===================================================================== *)

Section PaginationProperties.
Context {N : JSNumber}.
Variable refreshes : URLSearchParams.t -> URLSearchParams.t -> bool.

Lemma totalPages_bounds (r : ProductsResponse) :
  itemsPerPage * (totalPages (Some r) - 1) < total (pagination r)
    <= itemsPerPage * totalPages (Some r) /\
  (totalPages (Some r) <= 0 <-> total (pagination r) <= 0) /\
  totalPages (N := N) None = 0.
Proof.
  unfold totalPages, itemsPerPage. set (t := total (pagination r)).
  pose proof (Z.div_mod (t + (10 - 1)) 10 ltac:(lia)) as Hdm.
  pose proof (Z.mod_pos_bound (t + (10 - 1)) 10 ltac:(lia)) as Hm.
  repeat split; try lia; reflexivity.
Qed.

(** X6.  [totalPages] is the least number of pages of [itemsPerPage]
    items that hold [total] items, and 0 when no data has arrived. *)
Theorem totalPages_is_ceiling (r : ProductsResponse) :
  itemsPerPage * (totalPages (Some r) - 1) < total (pagination r)
    <= itemsPerPage * totalPages (Some r) /\
  (totalPages (Some r) <= 0 <-> total (pagination r) <= 0) /\
  totalPages (N := N) None = 0.
Proof.
  apply totalPages_bounds.
Qed.

(** X7.  The "Showing a-b of n" line: on every page from 1 to
    [totalPages] the range is non-empty, lies within 1..n, holds at most
    [itemsPerPage] items, and holds exactly that many on every page but
    the last. *)
Theorem showing_range (r : ProductsResponse) (z : Z) :
  1 <= z <= totalPages (Some r) ->
  let a := showingFrom z in
  let b := showingTo (Some r) z in
  1 <= a <= b /\ b <= total (pagination r) /\
  b - a + 1 <= itemsPerPage /\
  (z < totalPages (Some r) -> b - a + 1 = itemsPerPage).
Proof.
  intros Hz a b. subst a b.
  destruct (totalPages_bounds r) as (Hc & _ & _).
  unfold showingFrom, showingTo, itemsPerPage in *. lia.
Qed.


(** X9.  Previous and next undo each other inside the range: from a page
    above 1 and at most [totalPages], previous then next comes back to it;
    from a page from 1 to below [totalPages], next then previous does. *)
Theorem previous_next_inverse
  (productsData : option ProductsResponse) (st : Products) (z : Z) :
  currentPage st = JS.Int z ->
  (1 < z <= totalPages productsData ->
   currentPage (handleNextPage refreshes productsData
                  (handlePreviousPage refreshes st)) = JS.Int z) /\
  (1 <= z < totalPages productsData ->
   currentPage (handlePreviousPage refreshes
                  (handleNextPage refreshes productsData st)) = JS.Int z) /\
  (z = 1 -> currentPage (handlePreviousPage refreshes st) = JS.Int 1) /\
  (z = totalPages productsData ->
   currentPage (handleNextPage refreshes productsData st) = JS.Int z).
Proof.
  intros Hcur. unfold handleNextPage, handlePreviousPage, handlePageChange.
  cbn [publish currentPage]. rewrite Hcur. cbn [JS.sub JS.add JS.max JS.min].
  repeat split; intros Hz; f_equal; lia.
Qed.

(** X10.  Query keys: the filter [productKeys.lists()] matches every list
    key and no detail key, [productKeys.details()] matches every detail
    key and no list key, and the key of one product matches the key of
    another only when the ids are equal. *)
Theorem query_keys_separate
  (f : ProductFilters) (page : JS.pagenum) (limit : Z) (id id' : string) :
  matches keys_lists (keys_list f page limit) /\
  matches keys_details (keys_detail id) /\
  ~ matches keys_lists (keys_detail id) /\
  ~ matches keys_details (keys_list f page limit) /\
  (matches (keys_detail id) (keys_detail id') <-> id = id') /\
  matches keys_all (keys_list f page limit) /\
  matches keys_all (keys_detail id).
Proof.
  unfold matches, keys_list, keys_detail, keys_lists, keys_details, keys_all.
  repeat split.
  - eexists; reflexivity.
  - eexists; reflexivity.
  - intros [rest [=]].
  - intros [rest [=]].
  - intros [rest [= -> _]]. reflexivity.
  - intros ->. exists nil. reflexivity.
  - eexists; reflexivity.
  - eexists; reflexivity.
Qed.

End PaginationProperties.

(* ===================================================================== *)
(** * More on the cache patches and the store                             *)
(* ===================================================================== *)

Section PatchProperties.
Context {N : JSNumber}.


Lemma cache_eq (c1 c2 : QueryCache) :
  lists c1 = lists c2 -> details c1 = details c2 -> c1 = c2.
Proof. destruct c1, c2; cbn; intros -> ->; reflexivity. Qed.

(** X11.  Insert patch: after a successful create every cached list entry
    that has data starts with the new product, followed by its old records,
    and its total is one more; page, limit and the page count are not
    recomputed; entries without data and missing entries stay so, and the
    detail entries are untouched. *)
Theorem insert_patch (newProduct : Product) (q : Client) (hash : string) :
  let q' := createProduct_onSuccess newProduct q in
  details (cache q') = details (cache q) /\
  (forall r, lists (cache q) !! hash = Some (Some r) ->
     exists r', lists (cache q') !! hash = Some (Some r') /\
       data r' = newProduct :: data r /\
       total (pagination r') = total (pagination r) + 1 /\
       page (pagination r') = page (pagination r) /\
       limit (pagination r') = limit (pagination r) /\
       pages (pagination r') = pages (pagination r)) /\
  (lists (cache q) !! hash = Some None -> lists (cache q') !! hash = Some None) /\
  (lists (cache q) !! hash = None -> lists (cache q') !! hash = None).
Proof.
  intros q'. subst q'. unfold createProduct_onSuccess; cbn [cache].
  rewrite lookup_setListsData.
  split; [reflexivity|]. split; [|split]; [intros r Hr|intros Hr|intros Hr];
    rewrite Hr; [|reflexivity|reflexivity].
  exists (insertProduct newProduct r). repeat split.
Qed.


(** X13.  The replace patch is idempotent: applying the same successful
    update a second time changes nothing in the cache. *)
Theorem replace_patch_idempotent (updated : Product) (q : Client) :
  cache (updateProduct_onSuccess updated (updateProduct_onSuccess updated q))
  = cache (updateProduct_onSuccess updated q).
Proof.
  unfold updateProduct_onSuccess. cbn [cache]. apply cache_eq.
  - apply map_eq. intros hash.
    rewrite !lookup_setListsData; cbn [lists]; rewrite lookup_setListsData;
      cbn [lists].
    destruct (lists (cache q) !! hash) as [[r|]|]; cbn; try reflexivity.
    do 2 f_equal. unfold replaceProduct; cbn [data pagination]. f_equal.
    rewrite List.map_map. apply List.map_ext. intros x.
    destruct (String.eqb_spec (_id x) (_id updated)) as [E|E].
    + rewrite String.eqb_refl. reflexivity.
    + destruct (String.eqb_spec (_id x) (_id updated)); congruence.
  - cbn [setListsData details]. apply insert_insert_eq.
Qed.

(** X14.  No patch creates or evicts a list entry: the set of cached list
    keys is the same after a create, an update or a delete.  Among the
    detail entries a create touches none, an update adds or overwrites
    only the updated id, and a delete evicts only the deleted id. *)
Theorem patches_keep_list_entries (p : Product) (id : string) (q : Client) :
  dom (lists (cache (createProduct_onSuccess p q))) = dom (lists (cache q)) /\
  dom (lists (cache (updateProduct_onSuccess p q))) = dom (lists (cache q)) /\
  dom (lists (cache (deleteProduct_onSuccess id q))) = dom (lists (cache q)) /\
  dom (details (cache (createProduct_onSuccess p q))) = dom (details (cache q)) /\
  dom (details (cache (updateProduct_onSuccess p q)))
    = {[ _id p ]} ∪ dom (details (cache q)) /\
  dom (details (cache (deleteProduct_onSuccess id q)))
    = dom (details (cache q)) ∖ {[ id ]}.
Proof.
  unfold createProduct_onSuccess, updateProduct_onSuccess, deleteProduct_onSuccess.
  cbn [cache setListsData lists details].
  repeat split; try apply (dom_fmap_L (M := gmap string)).
  - apply dom_insert_L.
  - apply dom_delete_L.
Qed.

(** X15.  Every store action ends with [isLoading] off, keeps the store's
    filters, and leaves an error message exactly when the call failed. *)
Theorem store_settles (c : StoreCall) (st : ProductStore) :
  store_isLoading (store_run c st) = false /\
  store_filters (store_run c st) = store_filters st /\
  (store_error (store_run c st) = None <-> store_failure c = None).
Proof.
  destruct c as [s|s|s|id s|id s|s]; cbn [store_failure store_run];
    unfold fetchProducts, fetchProduct, createProduct, updateProduct,
           deleteProduct, searchProducts;
    match goal with
    | |- context [unwrap ?f ?s] => destruct (unwrap f s)
    | |- context [unwrap_delete ?i ?s] => destruct (unwrap_delete i s)
    end; cbn; repeat split; intros; try reflexivity; discriminate.
Qed.

(** X16.  The store and the query cache agree on the list: starting from
    the same records, a successful create, update (patched under the id of
    the returned record) and delete leave in the store exactly the records
    the matching cache patch leaves in a list entry.  Unlike the cache
    patches, the store never adjusts its pagination. *)
Theorem store_agrees_with_cache
  (st : ProductStore) (r : ProductsResponse) (p : Product) (id m : string) :
  data r = store_products st ->
  let ok := Resolved {| success := true; message := m; payload := Some p |} in
  let deleted := Resolved {| success := true; message := m; payload := None |} in
  store_products (createProduct ok st) = data (insertProduct p r) /\
  store_products (updateProduct (_id p) ok st) = data (replaceProduct p r) /\
  store_products (deleteProduct id deleted st) = data (removeProduct id r) /\
  store_pagination (createProduct ok st) = store_pagination st /\
  store_pagination (updateProduct (_id p) ok st) = store_pagination st /\
  store_pagination (deleteProduct id deleted st) = store_pagination st /\
  (forall x, In x (store_products (deleteProduct id deleted st)) -> _id x <> id).
Proof.
  intros Hr ok deleted. subst ok deleted.
  unfold createProduct, updateProduct, deleteProduct, insertProduct,
         replaceProduct, removeProduct.
  cbn [unwrap unwrap_delete success payload store_set store_products
       store_pagination data]. rewrite Hr.
  repeat split. intros x Hx. apply List.filter_In in Hx. destruct Hx as [_ Hx].
  destruct (String.eqb_spec (_id x) id); [discriminate|assumption].
Qed.

End PatchProperties.

(* ===================================================================== *)
(** * More on the create-product form                                     *)
(* ===================================================================== *)

Section MoreFormProperties.
Import CreateProductModal.
Variable below_cent below_zero : string -> bool.
Variable toUpperCase : string -> string.

Lemma length_zero (s : string) : (0 <? String.length s)%nat = false <-> s = "".
Proof. destruct s; cbn; split; intros; congruence. Qed.

Lemma not_blank (s : string) :
  (if (0 <? String.length (trim s))%nat then None else Some "x") = None
  <-> trim s <> "".
Proof.
  destruct (0 <? String.length (trim s))%nat eqn:E.
  - split; [|reflexivity]. intros _ H. rewrite H in E. discriminate.
  - apply length_zero in E. split; [discriminate|congruence].
Qed.

Lemma sku_error_table (v : FormValues) :
  let n := String.length (sku v) in
  let e := error_of below_cent below_zero f_sku v in
  (sku v = "" -> e = Some "SKU is required") /\
  ((0 < n < 3)%nat -> e = Some "SKU must be at least 3 characters") /\
  ((50 < n)%nat -> e = Some "SKU cannot exceed 50 characters") /\
  ((3 <= n <= 50)%nat -> trim (sku v) = "" -> e = Some "SKU cannot be empty") /\
  ((3 <= n <= 50)%nat -> trim (sku v) <> "" -> e = None).
Proof.
  intros n e. subst n e. unfold error_of, validateField, first_error.
  cbn [value_of rules required min minLength maxLength validate option_map snd].
  destruct (String.eqb_spec (sku v) "") as [E|E].
  - rewrite E. repeat split; cbn; intros; solve [reflexivity | lia | congruence].
  - cbn [negb andb].
    assert (Hpos : (0 < String.length (sku v))%nat).
    { destruct (sku v); [congruence|cbn; lia]. }
    destruct (Nat.ltb_spec 50 (String.length (sku v)));
      destruct (Nat.ltb_spec (String.length (sku v)) 3); cbn [orb];
      repeat split; intros; try lia; try congruence; try reflexivity.
    + match goal with H : trim _ = "" |- _ => rewrite H end. reflexivity.
    + destruct (0 <? String.length (trim (sku v)))%nat eqn:Ht; [reflexivity|].
      apply length_zero in Ht. congruence.
Qed.

(** X17.  The SKU field, rule by rule: the empty SKU is "required"; a SKU
    of 1 or 2 characters is too short; a SKU of more than 50 characters is
    too long; a SKU of 3 to 50 characters that is only white space "cannot
    be empty"; every other SKU is accepted. *)
Theorem sku_errors (v : FormValues) :
  let n := String.length (sku v) in
  let e := error_of below_cent below_zero f_sku v in
  (sku v = "" -> e = Some "SKU is required") /\
  ((0 < n < 3)%nat -> e = Some "SKU must be at least 3 characters") /\
  ((50 < n)%nat -> e = Some "SKU cannot exceed 50 characters") /\
  ((3 <= n <= 50)%nat -> trim (sku v) = "" -> e = Some "SKU cannot be empty") /\
  ((3 <= n <= 50)%nat -> trim (sku v) <> "" -> e = None).
Proof.
  apply sku_error_table.
Qed.

Lemma isValid_iff (v : FormValues) :
  isValid below_cent below_zero v = true
  <-> forall f, error_of below_cent below_zero f v = None.
Proof.
  unfold isValid. rewrite forallb_forall. split.
  - intros H f. assert (Hin : In f fields) by (destruct f; cbn; tauto).
    specialize (H f Hin). destruct (error_of below_cent below_zero f v);
      [discriminate|reflexivity].
  - intros H f _. rewrite H. reflexivity.
Qed.

Lemma required_min_error (m1 m2 : string) (below : string -> bool) (x : string) :
  validateField {| required := Some m1; min := Some (below, m2);
                   minLength := None; maxLength := None; validate := None |} x
  = None <-> x <> "" /\ below x = false.
Proof.
  unfold validateField, first_error.
  cbn [required min minLength maxLength validate].
  destruct (String.eqb_spec x "") as [E|E]; cbn.
  - split; [discriminate|]. intros [H _]. congruence.
  - destruct (below x); split; try discriminate; try tauto.
    intros [_ H]. discriminate.
Qed.

(** X18.  What the form can send: a submit sends nothing or exactly one
    request, [onSubmit(values)], and it sends one only if the name is
    non-blank and at most 100 characters, the SKU is non-blank and 3 to 50
    characters, the description is at most 500 characters, a category is
    chosen, and price, quantity and minimum stock level are filled in and
    not below their minimum.  (The browser's own checks on the inputs run
    before [handleSubmit] and can only keep a submit from happening.) *)
Theorem form_sends_only_valid (v : FormValues) :
  (handleSubmit below_cent below_zero toUpperCase v = onSubmit toUpperCase v :: nil \/
   handleSubmit below_cent below_zero toUpperCase v = nil) /\
  (handleSubmit below_cent below_zero toUpperCase v <> nil ->
   (trim (name v) <> "" /\ (String.length (name v) <= 100)%nat) /\
   (trim (sku v) <> "" /\ (3 <= String.length (sku v) <= 50)%nat) /\
   (String.length (description v) <= 500)%nat /\
   category v <> "" /\
   (price v <> "" /\ below_cent (price v) = false) /\
   (quantity v <> "" /\ below_zero (quantity v) = false) /\
   (minStockLevel v <> "" /\ below_zero (minStockLevel v) = false)).
Proof.
  split.
  { unfold handleSubmit. destruct (isValid below_cent below_zero v); tauto. }
  assert (Hname : error_of below_cent below_zero f_name v = None
                  <-> trim (name v) <> "" /\ (String.length (name v) <= 100)%nat).
  { unfold error_of, validateField, first_error.
    cbn [value_of rules required min minLength maxLength validate option_map snd].
    destruct (String.eqb_spec (name v) "") as [E|E].
    - rewrite E. cbn. split; [discriminate|]. intros [H _]. now elim H.
    - cbn [negb andb orb].
      destruct (Nat.ltb_spec 100 (String.length (name v))).
      + split; [discriminate|lia].
      + destruct (0 <? String.length (trim (name v)))%nat eqn:Ht.
        * split; [|reflexivity]. intros _. split; [|lia].
          intros Hb. rewrite Hb in Ht. discriminate.
        * apply length_zero in Ht. split; [discriminate|tauto]. }
  assert (Hsku : error_of below_cent below_zero f_sku v = None
                 <-> trim (sku v) <> "" /\ (3 <= String.length (sku v) <= 50)%nat).
  { destruct (sku_error_table v) as (H0 & H1 & H2 & H3 & H4). split.
    - intros He.
      destruct (String.eqb_spec (sku v) "") as [E|E];
        [rewrite (H0 E) in He; discriminate|].
      assert (Hpos : (0 < String.length (sku v))%nat)
        by (destruct (sku v); [congruence|cbn; lia]).
      destruct (Nat.ltb_spec (String.length (sku v)) 3);
        [rewrite H1 in He by lia; discriminate|].
      destruct (Nat.ltb_spec 50 (String.length (sku v)));
        [rewrite H2 in He by lia; discriminate|].
      split; [|lia]. intros Hb. rewrite H3 in He by (lia || assumption).
      discriminate.
    - intros [Hb Hl]. now apply H4. }
  assert (Hdesc : error_of below_cent below_zero f_description v = None
                  <-> (String.length (description v) <= 500)%nat).
  { unfold error_of, validateField, first_error.
    cbn [value_of rules required min minLength maxLength validate option_map snd].
    destruct (String.eqb_spec (description v) "") as [E|E].
    - rewrite E. cbn. split; [lia|reflexivity].
    - cbn [negb andb orb].
      destruct (Nat.ltb_spec 500 (String.length (description v)));
        split; try discriminate; try lia; reflexivity. }
  assert (Hcat : error_of below_cent below_zero f_category v = None
                 <-> category v <> "").
  { unfold error_of, validateField, first_error.
    cbn [value_of rules required min minLength maxLength validate].
    destruct (String.eqb_spec (category v) "") as [E|E]; cbn;
      split; try discriminate; try tauto. }
  pose proof (required_min_error "Price is required"
                "Price must be greater than 0" below_cent (price v)) as Hprice.
  pose proof (required_min_error "Quantity is required"
                "Quantity must be 0 or greater" below_zero (quantity v)) as Hqty.
  pose proof (required_min_error "Minimum stock level is required"
                "Minimum stock level must be 0 or greater" below_zero
                (minStockLevel v)) as Hmin.
  unfold handleSubmit.
  destruct (isValid below_cent below_zero v) eqn:Hv.
  - intros _. rewrite isValid_iff in Hv.
    rewrite <- Hname, <- Hsku, <- Hdesc, <- Hcat, <- Hprice, <- Hqty, <- Hmin.
    repeat split;
      [apply (Hv f_name)|apply (Hv f_sku)|apply (Hv f_description)
      |apply (Hv f_category)|apply (Hv f_price)|apply (Hv f_quantity)
      |apply (Hv f_minStockLevel)].
  - intros H. now elim H.
Qed.

End MoreFormProperties.

Section ImageProperties.
Import CreateProductModal.

Lemma filter_index_past (target k : nat) (l : list string) :
  (target < k)%nat ->
  filter_index (fun j => negb (Nat.eqb j target)) k l = l.
Proof.
  revert k. induction l as [|z l IH]; intros k Hk; [reflexivity|].
  cbn [filter_index]. destruct (Nat.eqb_spec k target); [lia|].
  cbn [negb]. f_equal. apply IH. lia.
Qed.

Lemma filter_index_shift (index i : nat) (l : list string) :
  filter_index (fun j => negb (Nat.eqb j (i + index))) i l
  = (firstn index l ++ skipn (S index) l)%list.
Proof.
  revert index i. induction l as [|x l IH]; intros index i.
  - destruct index; reflexivity.
  - cbn [filter_index]. destruct index as [|index].
    + rewrite Nat.add_0_r, Nat.eqb_refl. cbn [negb firstn skipn app].
      apply filter_index_past. lia.
    + destruct (Nat.eqb_spec i (i + S index)) as [E|_]; [lia|].
      cbn [negb firstn skipn app]. f_equal.
      replace (i + S index)%nat with (S i + index)%nat by lia. apply IH.
Qed.

(** X20.  [removeImage(index)] removes exactly the image at that position:
    the images before and after it stay in order, nothing else of the form
    changes, and an index past the end removes nothing. *)
Theorem removeImage_exact (index : nat) (m : Modal) :
  let l := images (values m) in
  let l' := images (values (removeImage index m)) in
  l' = (firstn index l ++ skipn (S index) l)%list /\
  ((index < length l)%nat -> S (length l') = length l) /\
  ((length l <= index)%nat -> l' = l) /\
  set_images l (values (removeImage index m)) = values m /\
  imageUrl (removeImage index m) = imageUrl m.
Proof.
  intros l l'. subst l l'. unfold removeImage; cbn [values images set_images imageUrl].
  pose proof (filter_index_shift index 0 (images (values m))) as H.
  cbn [Nat.add] in H. rewrite H.
  split; [reflexivity|]. split; [|split; [|split]].
  - intros Hlt. rewrite List.length_app, List.length_firstn, List.length_skipn. lia.
  - intros Hge. rewrite List.firstn_all2 by exact Hge.
    rewrite List.skipn_all2 by lia. apply List.app_nil_r.
  - destruct (values m); reflexivity.
  - reflexivity.
Qed.

Lemma filter_index_sublist (keep : nat -> bool) (i : nat) (l : list string) (x : string) :
  In x (filter_index keep i l) -> In x l.
Proof.
  revert i. induction l as [|y l IH]; intros i; cbn [filter_index]; [tauto|].
  destruct (keep i); cbn [In]; intros H; [destruct H as [H|H]|]; eauto.
Qed.

Lemma filter_index_NoDup (keep : nat -> bool) (i : nat) (l : list string) :
  List.NoDup l -> List.NoDup (filter_index keep i l).
Proof.
  intros H. revert i. induction H as [|y l Hy Hl IH]; intros i; cbn [filter_index].
  - constructor.
  - destruct (keep i); [|apply IH]. constructor; [|apply IH].
    intros Hin. apply Hy. eapply filter_index_sublist. exact Hin.
Qed.

Lemma includes_In (x : string) (l : list string) :
  includes x l = false -> ~ In x l.
Proof.
  unfold includes. intros H Hin.
  assert (E : existsb (String.eqb x) l = true).
  { apply existsb_exists. exists x. split; [exact Hin|apply String.eqb_refl]. }
  congruence.
Qed.

(** X21.  The image list stays clean: whatever the user types, adds,
    removes, or however often the modal is closed, the images of the form
    never hold the same URL twice and every one of them has the shape
    [http://...] or [https://...]. *)
Theorem images_stay_clean (actions : list ImageAction) (m : Modal) :
  List.NoDup (images (values m)) ->
  Forall (fun u => urlPattern u = true) (images (values m)) ->
  let m' := image_session actions m in
  List.NoDup (images (values m')) /\
  Forall (fun u => urlPattern u = true) (images (values m')).
Proof.
  intros Hnd Hall m'. subst m'. unfold image_session.
  revert m Hnd Hall. induction actions as [|a actions IH]; intros m Hnd Hall;
    cbn [fold_left]; [split; assumption|].
  apply IH; destruct a as [text| |index|]; cbn [image_step values images];
    try assumption; try constructor.
  - unfold addImage.
    destruct (JS.truthy (Some (trim (imageUrl m)))); cbn [andb]; [|assumption].
    destruct (includes (trim (imageUrl m)) (images (values m))) eqn:Hinc;
      cbn [negb]; [assumption|].
    destruct (urlPattern (trim (imageUrl m))); [|assumption].
    cbn [values images set_images]. apply List.NoDup_app; [assumption| |].
    + constructor; [intros []|constructor].
    + intros x Hx [<-|[]]. now apply includes_In in Hinc.
  - unfold removeImage; cbn [values images set_images].
    now apply filter_index_NoDup.
  - unfold addImage.
    destruct (JS.truthy (Some (trim (imageUrl m)))); cbn [andb]; [|assumption].
    destruct (includes (trim (imageUrl m)) (images (values m)));
      cbn [negb]; [assumption|].
    destruct (urlPattern (trim (imageUrl m))) eqn:Hp; [|assumption].
    cbn [values images set_images]. apply Forall_app. split; [assumption|].
    constructor; [exact Hp|constructor].
  - unfold removeImage; cbn [values images set_images].
    rewrite List.Forall_forall in *. intros x Hx. apply Hall.
    eapply filter_index_sublist. exact Hx.
Qed.

End ImageProperties.

(* ===================================================================== *)
(** * Credentials                                                         *)
(* ===================================================================== *)

Section AuthProperties.
Import Auth.

(** X22.  Authentication expiry: a 401 response removes the stored token
    and user, leaves every other storage key alone, sends the browser to
    [/login], and the next request goes out without an [Authorization]
    header.  A failure with any other status, or with no response at all,
    changes nothing. *)
Theorem unauthorized_purges_credentials (status : option Z) (b : Browser) :
  let b' := responseErrorInterceptor status b in
  (status = Some 401 ->
   localStorage b' !! "token" = None /\
   localStorage b' !! "user" = None /\
   (forall key, key <> "token" -> key <> "user" ->
                localStorage b' !! key = localStorage b !! key) /\
   href b' = "/login" /\
   requestInterceptor b' = None) /\
  (status <> Some 401 -> b' = b).
Proof.
  intros b'. subst b'. split.
  - intros ->. cbn [responseErrorInterceptor localStorage href].
    assert (Ht : delete "user" (delete "token" (localStorage b)) !! "token" = None).
    { rewrite lookup_delete_ne by discriminate. apply lookup_delete_eq. }
    split; [exact Ht|]. split; [apply lookup_delete_eq|]. split; [|split].
    + intros key H1 H2. rewrite !lookup_delete_ne by congruence. reflexivity.
    + reflexivity.
    + unfold requestInterceptor. cbn [localStorage]. rewrite Ht. reflexivity.
  - intros Hs. destruct status as [z|]; [|reflexivity].
    unfold responseErrorInterceptor.
    destruct z as [|p|p]; try reflexivity.
    do 9 (destruct p as [p|p|]; try reflexivity). now elim Hs.
Qed.

(** X24.  What [logout] leaves behind: the store holds no user, no token
    and no error and is not authenticated; [localStorage] has lost [token]
    and [user], holds the logged-out state under [auth-storage] and keeps
    every other key; the address is not changed; the next request carries
    no [Authorization] header; and a [checkAuth] that follows sends no
    request and changes nothing. *)
Theorem logout_clears_session (stringify : option User -> option string -> bool -> string)
  (w : World) :
  let w' := logout stringify w in
  (user (store w') = None /\ token (store w') = None /\
   isAuthenticated (store w') = false /\ error (store w') = None /\
   isLoading (store w') = isLoading (store w)) /\
  (localStorage (browser w') !! "token" = None /\
   localStorage (browser w') !! "user" = None /\
   localStorage (browser w') !! "auth-storage" = Some (stringify None None false) /\
   (forall key, key <> "token" -> key <> "user" -> key <> "auth-storage" ->
      localStorage (browser w') !! key = localStorage (browser w) !! key)) /\
  href (browser w') = href (browser w) /\
  requestInterceptor (browser w') = None /\
  checkAuth stringify w' = Done w'.
Proof.
  intros w'. subst w'.
  assert (Ht : localStorage (browser (logout stringify w)) !! "token" = None).
  { cbn. rewrite lookup_insert_ne by discriminate.
    rewrite lookup_delete_ne by discriminate. apply lookup_delete_eq. }
  split; [repeat split|]. split; [|split; [reflexivity|split]].
  - split; [exact Ht|]. split; [|split].
    + cbn. rewrite lookup_insert_ne by discriminate. apply lookup_delete_eq.
    + cbn. apply lookup_insert_eq.
    + intros key H1 H2 H3. cbn. rewrite lookup_insert_ne by congruence.
      rewrite !lookup_delete_ne by congruence. reflexivity.
  - unfold requestInterceptor. rewrite Ht. reflexivity.
  - unfold checkAuth. rewrite Ht. f_equal.
    unfold logout, set, setItem. cbn. f_equal. f_equal.
    apply insert_insert_eq.
Qed.

End AuthProperties.

(* ===================================================================== *)
(** * More on the URL contract and the debounce                           *)
(* ===================================================================== *)

Section MoreUrlProperties.
Context {N : JSNumber}.
Variable refreshes : URLSearchParams.t -> URLSearchParams.t -> bool.

(** X25.  What a written URL contains: each of the six parameters at most
    once, no other parameter, and never an empty value.  [search] and
    [category] appear exactly when they are non-empty, a price bound
    exactly when it is set, [inStock] exactly when it is true and then as
    [true], [page] exactly when it is above 1. *)
Theorem written_url_contents (laws : JSNumberLaws N)
  (f : ProductFilters) (p : JS.pagenum) :
  let url := updateUrlParams f p in
  List.NoDup (List.map fst url) /\
  (forall k v, In (k, v) url ->
     v <> "" /\
     In k ["search"; "category"; "minPrice"; "maxPrice"; "inStock"; "page"]) /\
  URLSearchParams.get "search" url
    = match search f with Some "" => None | o => o end /\
  URLSearchParams.get "category" url
    = match category f with Some "" => None | o => o end /\
  URLSearchParams.get "minPrice" url = option_map number_toString (minPrice f) /\
  URLSearchParams.get "maxPrice" url = option_map number_toString (maxPrice f) /\
  URLSearchParams.get "inStock" url
    = (if is_true (inStock f) then Some "true" else None) /\
  URLSearchParams.get "page" url
    = (if JS.gt p (JS.Int 1) then Some (JS.int_toString p) else None).
Proof.
  intros url. subst url.
  assert (Hnum : forall x : number, number_toString x <> "").
  { intros x Hx. pose proof (toString_truthy N laws x) as Ht.
    rewrite Hx in Ht. discriminate. }
  assert (Hpage : JS.int_toString p <> "").
  { intros Hx. pose proof (int_toString_truthy p) as Ht.
    rewrite Hx in Ht. discriminate. }
  destruct f as [s c mn mx st]. unfold updateUrlParams.
  cbn [search category minPrice maxPrice inStock is_true option_map].
  destruct (JS.gt p (JS.Int 1)), s as [[|sa sr]|], c as [[|ca cr]|],
    mn as [x|], mx as [y|], st as [[|]|];
    cbn -[JS.int_toString];
    (split; [repeat (constructor; [cbn; intuition discriminate|]); constructor|]);
    (split; [|repeat split]);
    intros k v Hin; cbn in Hin;
    repeat (destruct Hin as [[= <- <-]|Hin]; [split; [try discriminate; auto|cbn; tauto]|]);
    destruct Hin.
Qed.

Lemma updateUrlParams_normal_form (f : ProductFilters) (p : JS.pagenum) :
  updateUrlParams (fst (url_normal_form f p)) (snd (url_normal_form f p))
  = updateUrlParams f p.
Proof.
  destruct f as [s c mn mx st]. unfold url_normal_form, updateUrlParams.
  cbn [fst snd search category minPrice maxPrice inStock].
  destruct p as [|z]; cbn [JS.gt];
    [|destruct (Z.ltb_spec 1 z) as [Hz|Hz]; cbn [JS.gt];
      [destruct (Z.ltb_spec 1 z); [|lia]|]];
    destruct s as [[|sa sr]|], c as [[|ca cr]|], mn, mx, st as [[|]|];
    reflexivity.
Qed.

(** X26.  A URL the page has written survives a reload: for prices that
    are not NaN and a page that, when an integer, is at most the largest
    safe integer, mounting the page on the URL written for a state gives a
    state whose encoding is that same URL, so nothing has to be
    rewritten. *)
Theorem reload_keeps_url (laws : JSNumberLaws N)
  (f : ProductFilters) (p : JS.pagenum) :
  minPrice f <> Some NaN -> maxPrice f <> Some NaN ->
  (forall z, p = JS.Int z -> z <= JS.MAX_SAFE_INTEGER) ->
  let url := updateUrlParams f p in
  let st := mount url in
  searchParams st = url /\
  updateUrlParams (filters st) (currentPage st) = url.
Proof.
  intros Hmn Hmx _ url st. subst st url.
  split; [reflexivity|].
  cbn [mount filters currentPage].
  pose proof (initialize_updateUrlParams laws f p Hmn Hmx) as Hi.
  apply (f_equal (fun fp => updateUrlParams (fst fp) (snd fp))) in Hi.
  cbn [fst snd] in Hi. rewrite Hi. apply updateUrlParams_normal_form.
Qed.

Lemma keystrokes_count (calls : list (nat * string)) (st : Products) (t : Timeout) :
  debounceTimeoutRef st = Some t -> remaining t = debounceDelay ->
  length (history (keystrokes refreshes calls st))
  = (length (history st)
     + length (List.filter (fun c => (debounceDelay <=? fst c)%nat) calls))%nat.
Proof.
  revert st t. induction calls as [|[gap text] calls IH]; intros st t Ht Hr.
  - cbn. lia.
  - cbn [keystrokes List.filter fst].
    unfold elapse at 1. rewrite Ht, Hr.
    destruct (debounceDelay <=? gap)%nat.
    + erewrite IH; [|reflexivity|reflexivity]. cbn. lia.
    + erewrite IH; [|reflexivity|reflexivity]. cbn. lia.
Qed.

(** X27.  How many commits a typing session causes, whatever its rhythm:
    after the first keystroke, exactly one for every keystroke that comes
    at least 300 ms after the previous one (that previous text is what
    gets committed), none for the others, and one more once the user has
    stopped for 300 ms. *)
Theorem commits_per_pause
  (st : Products) (t0 : string) (calls : list (nat * string)) (d : nat) :
  (debounceDelay <= d)%nat ->
  let pauses :=
    length (List.filter (fun c => (debounceDelay <=? fst c)%nat) calls) in
  let typed := keystrokes refreshes calls (handleSearchChange t0 st) in
  length (history typed) = (length (history st) + pauses)%nat /\
  length (history (elapse refreshes d typed))
  = (length (history st) + pauses + 1)%nat /\
  search (filters (elapse refreshes d typed))
  = Some (List.last (List.map snd calls) t0).
Proof.
  intros Hd pauses typed. subst pauses typed.
  assert (Hc : length (history (keystrokes refreshes calls (handleSearchChange t0 st)))
               = (length (history st)
                  + length (List.filter (fun c => (debounceDelay <=? fst c)%nat)
                                        calls))%nat).
  { erewrite keystrokes_count; [|reflexivity|reflexivity]. reflexivity. }
  split; [exact Hc|].
  assert (Hlast : forall calls st t0,
            exists base,
              keystrokes refreshes calls (handleSearchChange t0 st)
              = handleSearchChange (List.last (List.map snd calls) t0) base /\
              history base
              = history (keystrokes refreshes calls (handleSearchChange t0 st))).
  { clear. induction calls as [|[gap text] calls IH]; intros st t0.
    - exists st. split; reflexivity.
    - cbn [keystrokes].
      destruct (IH (elapse refreshes gap (handleSearchChange t0 st)) text)
        as (base & E & H).
      exists base. split; [|exact H]. rewrite E. f_equal.
      change (List.map snd ((gap, text) :: calls))
        with (text :: List.map snd calls).
      symmetry. apply last_cons. }
  destruct (Hlast calls st t0) as (base & E & Hb).
  rewrite E in *. rewrite (elapse_handleSearchChange refreshes base _ d Hd).
  split; [|reflexivity]. cbn [publish history set_timer length].
  cbn [handleSearchChange set_timer history] in Hc. lia.
Qed.

(** X28.  When a delete confirmation touches the URL: never, unless the
    delete succeeded for a selected product, the render showed exactly one
    item and the page was above 1.  In every other case the page number,
    the URL and the history are untouched, and a failed delete also leaves
    the dialog open on the same product. *)
Theorem delete_confirm_pushes_only_on_step_back
  (products : list Product) (s : Settled unit) (st : Products) :
  let st' := handleDeleteConfirm refreshes products s st in
  filters st' = filters st /\
  ((currentPage st' = currentPage st /\ searchParams st' = searchParams st /\
    history st' = history st)
   \/
   (history st' = searchParams st' :: history st /\
    length products = 1%nat /\ JS.gt (currentPage st) (JS.Int 1) = true /\
    exists p, productToDelete st = Some p /\
              unwrap_delete (_id p) s = inl (_id p))) /\
  (forall p e, productToDelete st = Some p ->
               unwrap_delete (_id p) s = inr e -> st' = st).
Proof.
  intros st'. subst st'. unfold handleDeleteConfirm.
  destruct (productToDelete st) as [p|] eqn:Hp.
  - destruct (unwrap_delete (_id p) s) as [id|e] eqn:Hs.
    + assert (Hid : id = _id p).
      { unfold unwrap_delete in Hs. destruct s as [r|e]; [|discriminate].
        destruct (success r); congruence. }
      subst id.
      destruct (length products =? 1)%nat eqn:Hlen; cbn [andb].
      * destruct (JS.gt (currentPage st) (JS.Int 1)) eqn:Hgt.
        -- split; [reflexivity|]. split; [|intros p0 e0 [= <-] He; rewrite Hs in He; discriminate He].
           right. apply Nat.eqb_eq in Hlen.
           split; [reflexivity|]. split; [exact Hlen|]. split; [reflexivity|].
           exists p. split; [reflexivity|exact Hs].
        -- split; [reflexivity|]. split; [|intros p0 e0 [= <-] He; rewrite Hs in He; discriminate He].
           left. repeat split.
      * split; [reflexivity|]. split; [|intros p0 e0 [= <-] He; rewrite Hs in He; discriminate He]. left. repeat split.
    + split; [reflexivity|]. split; [left; repeat split|reflexivity].
  - split; [reflexivity|]. split; [left; repeat split|discriminate].
Qed.

End MoreUrlProperties.

Lemma reload_keeps_url_witness :
  let url := [("search", "usb"); ("minPrice", "5"); ("page", "2")] in
  let st := mount (N := IntNumber) url in
  updateUrlParams (filters st) (currentPage st) = url.
Proof.
  intros url st.
  refine (proj2 (reload_keeps_url (N := IntNumber) IntNumber_laws
            {| search := Some "usb"; category := None;
               minPrice := Some (int_price 5); maxPrice := None;
               inStock := None |} (JS.Int 2) _ _ _)); try discriminate.
  intros z [= <-]. unfold JS.MAX_SAFE_INTEGER. lia.
Defined.

Lemma commits_per_pause_witness :
  let st := mount (N := IntNumber) [] in
  let typed := keystrokes on_query_change
                 [(80%nat, "us"); (450%nat, "usb"); (60%nat, "usb ")]
                 (handleSearchChange "u" st) in
  history typed = [[("search", "us")]] /\
  length (history (elapse on_query_change 300 typed)) = 2%nat.
Proof.
  intros st typed. split; [reflexivity|].
  assert (Hd : (debounceDelay <= 300)%nat) by (unfold debounceDelay; lia).
  exact (proj1 (proj2 (commits_per_pause on_query_change st "u"
           [(80%nat, "us"); (450%nat, "usb"); (60%nat, "usb ")] 300 Hd))).
Defined.

(* ===================================================================== *)
(** * The properties above on sample data                                 *)
(* ===================================================================== *)

Lemma url_always_encodes_state_witness :
  let data := Some (Sample.first_page [Sample.hub] 25) in
  let st := run (N := IntNumber) on_query_change
              [SearchChange "usb"; Wait 300; FiltersChange Sample.books_only;
               PageClick data NextButton; SearchChange "x"; Wait 10]
              (mount []) in
  searchParams st = [("category", "Books"); ("page", "2")] /\
  searchParams st = updateUrlParams (filters st) (currentPage st).
Proof.
  intros data st. split; [reflexivity|].
  exact (proj1 (url_always_encodes_state on_query_change
                  [SearchChange "usb"; Wait 300; FiltersChange Sample.books_only;
                   PageClick data NextButton; SearchChange "x"; Wait 10]
                  (mount []) eq_refl)).
Defined.

Lemma clearSearch_keeps_pending_commit_witness :
  let st := mount (N := IntNumber) [] in
  let later := elapse on_query_change 300
                 (clearSearch on_query_change (handleSearchChange "usb" st)) in
  search (filters later) = Some "usb" /\
  localSearchValue later = "" /\
  searchParams later = [("search", "usb")].
Proof.
  intros st later.
  assert (Hd : (debounceDelay <= 300)%nat) by (unfold debounceDelay; lia).
  destruct (clearSearch_keeps_pending_commit on_query_change st "usb" 300 Hd)
    as (_ & H1 & H2 & _).
  split; [exact H1|]. split; [exact H2|reflexivity].
Defined.

Lemma unmount_cancels_commit_witness :
  let st := mount (N := IntNumber) [("category", "Books")] in
  let gone := unmount (keystrokes on_query_change [(120%nat, "us"); (90%nat, "usb")]
                         (handleSearchChange "u" st)) in
  elapse on_query_change 5000 gone = gone /\
  filters gone = Sample.books_only /\
  history gone = [].
Proof.
  intros st gone.
  assert (Hgaps : Forall (fun c : nat * string => (fst c < debounceDelay)%nat)
                         [(120%nat, "us"); (90%nat, "usb")]).
  { repeat constructor; cbn; unfold debounceDelay; lia. }
  destruct (unmount_cancels_commit on_query_change st "u"
              [(120%nat, "us"); (90%nat, "usb")] 5000 Hgaps)
    as (H1 & H2 & _ & _ & H5).
  split; [exact H1|]. split; [exact H2|exact H5].
Defined.

Lemma showing_range_witness :
  let r := Sample.first_page [Sample.hub] 25 in
  showingFrom 3 = 21 /\ showingTo (Some r) 3 = 25 /\
  showingTo (Some r) 3 - showingFrom 3 + 1 <= itemsPerPage.
Proof.
  intros r. split; [reflexivity|]. split; [reflexivity|].
  assert (Hz : 1 <= 3 <= totalPages (Some r)).
  { change (totalPages (Some r)) with 3. lia. }
  exact (proj1 (proj2 (proj2 (showing_range r 3 Hz)))).
Defined.


Lemma previous_next_inverse_witness :
  let data := Some (Sample.first_page [Sample.hub] 25) in
  let st := mount (N := IntNumber) [("page", "2")] in
  currentPage (handleNextPage on_query_change data
                 (handlePreviousPage on_query_change st)) = JS.Int 2 /\
  currentPage (handlePreviousPage on_query_change
                 (handleNextPage on_query_change data st)) = JS.Int 2.
Proof.
  intros data st.
  destruct (previous_next_inverse on_query_change data st 2 eq_refl)
    as (H1 & H2 & _).
  change (totalPages data) with 3 in *.
  split; [apply H1|apply H2]; lia.
Defined.


Lemma store_agrees_with_cache_witness :
  let r := Sample.first_page [Sample.hub; Sample.cable] 2 in
  let ok := Resolved {| success := true; message := "ok";
                        payload := Some Sample.hub_v2 |} in
  store_products (updateProduct "a" ok Sample.in_store)
  = [Sample.hub_v2; Sample.cable] /\
  store_products (updateProduct "a" ok Sample.in_store)
  = data (replaceProduct Sample.hub_v2 r).
Proof.
  intros r ok. split; [reflexivity|].
  exact (proj1 (proj2 (store_agrees_with_cache Sample.in_store r Sample.hub_v2
                         "a" "ok" eq_refl))).
Defined.

Lemma sku_errors_witness :
  CreateProductModal.error_of Sample.never_below Sample.never_below
    CreateProductModal.f_sku (Sample.with_sku "    " Sample.form)
  = Some "SKU cannot be empty".
Proof.
  refine (proj1 (proj2 (proj2 (proj2
            (sku_errors Sample.never_below Sample.never_below
                        (Sample.with_sku "    " Sample.form))))) _ eq_refl).
  cbn. lia.
Defined.

Lemma form_sends_only_valid_witness :
  let v := Sample.with_sku "hub-1" Sample.form in
  CreateProductModal.handleSubmit Sample.never_below Sample.never_below
    CreateProductModal.upper_ascii v
  = [Sample.with_sku "HUB-1" Sample.form] /\
  (3 <= String.length (CreateProductModal.sku v) <= 50)%nat.
Proof.
  intros v. split; [reflexivity|].
  refine (proj2 (proj1 (proj2 (proj2 (form_sends_only_valid Sample.never_below
            Sample.never_below CreateProductModal.upper_ascii v) _)))).
  discriminate.
Defined.

Lemma removeImage_exact_witness :
  let m := {| CreateProductModal.imageUrl := "";
              CreateProductModal.imageError := "";
              CreateProductModal.values :=
                CreateProductModal.set_images
                  ["https://a.example/1.png"; "https://a.example/2.png";
                   "https://a.example/3.png"] Sample.form |} in
  CreateProductModal.images
    (CreateProductModal.values (CreateProductModal.removeImage 1 m))
  = ["https://a.example/1.png"; "https://a.example/3.png"] /\
  CreateProductModal.images
    (CreateProductModal.values (CreateProductModal.removeImage 3 m))
  = ["https://a.example/1.png"; "https://a.example/2.png";
     "https://a.example/3.png"].
Proof.
  intros m. split.
  - exact (proj1 (removeImage_exact 1 m)).
  - apply (proj1 (proj2 (proj2 (removeImage_exact 3 m)))). cbn. lia.
Defined.

Lemma images_stay_clean_witness :
  let m := CreateProductModal.image_session
             [CreateProductModal.AddImage;
              CreateProductModal.TypeUrl "https://cdn.example.com/hub.png";
              CreateProductModal.AddImage;
              CreateProductModal.TypeUrl "ftp://cdn.example.com/hub.png";
              CreateProductModal.AddImage]
             Sample.modal in
  CreateProductModal.images (CreateProductModal.values m)
  = ["https://cdn.example.com/hub.png"] /\
  CreateProductModal.imageUrl m = "ftp://cdn.example.com/hub.png" /\
  List.NoDup (CreateProductModal.images (CreateProductModal.values m)).
Proof.
  intros m. split; [reflexivity|]. split; [reflexivity|].
  refine (proj1 (images_stay_clean _ Sample.modal _ _)); constructor.
Defined.

Lemma unauthorized_purges_credentials_witness :
  let b := Auth.responseErrorInterceptor (Some 401) Sample.returning_browser in
  Auth.localStorage b !! "token" = None /\
  Auth.localStorage b !! "theme" = Some "dark" /\
  Auth.href b = "/login" /\
  Auth.responseErrorInterceptor (Some 500) Sample.returning_browser
  = Sample.returning_browser.
Proof.
  intros b.
  destruct (unauthorized_purges_credentials (Some 401) Sample.returning_browser)
    as [H _].
  destruct (H eq_refl) as (H1 & _ & H3 & H4 & _).
  split; [exact H1|]. split; [|split; [exact H4|reflexivity]].
  unfold b. rewrite H3 by discriminate. reflexivity.
Defined.

Lemma written_url_contents_witness :
  let f : ProductFilters (N := IntNumber) :=
    {| search := Some ""; category := Some "Books";
       minPrice := Some (int_price 0); maxPrice := None;
       inStock := Some false |} in
  updateUrlParams f (JS.Int 1) = [("category", "Books"); ("minPrice", "0")] /\
  List.NoDup (List.map fst (updateUrlParams f (JS.Int 1))) /\
  URLSearchParams.get "search" (updateUrlParams f (JS.Int 1)) = None.
Proof.
  intros f. split; [reflexivity|].
  destruct (written_url_contents (N := IntNumber) IntNumber_laws f (JS.Int 1))
    as (H1 & _ & H3 & _).
  split; [exact H1|exact H3].
Defined.
